(** * league_gametriq / crewai_research: the research-crew driver

    A shallow embedding of the three Python modules of the repository

      - [agents.py]  (class [BasketballLeagueAgents])
      - [tasks.py]   (class [BasketballLeagueTasks])
      - [main.py]    (class [OutputCapture] and function [main])

    over an explicit object store.  Python objects live in a heap and are
    passed around by reference, so that the task objects listed in a
    [context], the task objects handed to the [Crew] and the task objects
    read back by the report writer are the same objects.  Statements that
    may raise are computations in a state-and-exception monad.

    The framework ([crewai]) is not part of the repository.  Its classes
    [Agent], [Task] and [Crew] appear as records of the keyword arguments
    the repository passes to their constructors; what [crew.kickoff()] does
    is an input of a run (an [environment]): the text it writes to
    [sys.stdout], the [output] attributes it sets on the tasks of the crew,
    and the value it returns or the exception it raises.  The two readings
    of the clock are inputs of a run as well.

    The development has two parts: the embedding of the three modules
    ([Py], [agents], [tasks], [main]), and the properties, which start with
    the vocabulary their statements use. *)

From Stdlib Require Import String Ascii List ZArith Bool Arith Lia.
From stdpp Require Import base list strings relations.

Local Open Scope string_scope.
Local Open Scope list_scope.

(** ** Python values, exceptions and objects *)

Module Py.

(** Text.  Python [str] values are modelled as byte strings holding their
    UTF-8 encoding. *)

Definition nl : string := String (ascii_of_nat 10) EmptyString.

(** ["\n".join(ls)]: the value of a (triple-quoted) literal given line by
    line. *)
Definition unlines (ls : list string) : string := String.concat nl ls.

(** [s * n] for a string [s]. *)
Fixpoint str_mul (s : string) (n : nat) : string :=
  match n with
  | O => ""
  | S k => s +:+ str_mul s k
  end.

(** The values the driver inspects: what a task's [output] attribute or the
    return value of [crew.kickoff()] may hold.  An object of a framework
    class is known to the driver only through [bool(v)] and [str(v)]. *)
Inductive value : Type :=
  | VNone
  | VStr (s : string)
  | VObj (truth : bool) (shown : string).

(** [bool(v)], as used by [if v:] and [and]. *)
Definition truthy (v : value) : bool :=
  match v with
  | VNone => false
  | VStr s => negb (String.eqb s "")
  | VObj b _ => b
  end.

(** [str(v)]. *)
Definition str (v : value) : string :=
  match v with
  | VNone => "None"
  | VStr s => s
  | VObj _ s => s
  end.

(** Exception classes.  [ExceptionClass n] stands for every class derived
    from [Exception]; the other three derive from [BaseException] only. *)
Inductive exn_class : Type :=
  | KeyboardInterrupt
  | SystemExit
  | GeneratorExit
  | ExceptionClass (name : string).

Record exn : Type := Exn { exn_class_of : exn_class; exn_message : string }.

(** [isinstance(e, Exception)]: what [except Exception] tests. *)
Definition isinstance_Exception (e : exn) : bool :=
  match exn_class_of e with
  | ExceptionClass _ => true
  | _ => false
  end.

Definition ValueError (m : string) : exn := Exn (ExceptionClass "ValueError") m.
Definition AttributeError (m : string) : exn := Exn (ExceptionClass "AttributeError") m.
Definition TypeError (m : string) : exn := Exn (ExceptionClass "TypeError") m.
Definition UnboundLocalError (m : string) : exn :=
  Exn (ExceptionClass "UnboundLocalError") m.

(** References into the object store. *)
Abbreviation ref := nat (only parsing).

(** A text stream (the interpreter's standard output, or a file opened for
    writing): what has reached the device, what is still buffered, and
    whether the stream has been closed. *)
Record stream : Type := Stream {
  delivered : list string;
  pending : list string;
  closed : bool
}.

(** Everything written to the stream so far, in order. *)
Definition received (s : stream) : list string := delivered s ++ pending s.

(** [crewai.Agent], as far as this repository configures it: the keyword
    arguments passed to the constructor. *)
Record Agent : Type := mkAgent {
  role : string;
  goal : string;
  backstory : string;
  verbose : bool;
  allow_delegation : bool;
  max_iter : Z
}.

(** [crewai.Task]: the keyword arguments passed to the constructor
    ([context] is [None] when the keyword is not given), and the [output]
    attribute the driver reads back ([None]: the object has no such
    attribute). *)
Record Task : Type := mkTask {
  description : string;
  agent : ref;
  expected_output : string;
  context : option (list ref);
  output : option value
}.

Inductive Process : Type := sequential | hierarchical.

(** [crewai.Crew]: the keyword arguments passed to the constructor. *)
Record Crew : Type := mkCrew {
  crew_agents : list ref;
  crew_tasks : list ref;
  process : Process;
  crew_verbose : bool;
  full_output : bool
}.

Inductive obj : Type :=
  | OInstance (class_name : string)       (* an instance without attributes *)
  | OAgent (a : Agent)
  | OTask (t : Task)
  | OCrew (c : Crew)
  | OStream (s : stream)
  | OCapture (terminal log : ref).        (* main.OutputCapture *)

(** The interpreter state: the object store, the two module attributes
    [sys.stdout] and [sys.__stdout__], the files of the working directory
    (name and stream, the most recently opened first), and the one local
    variable of [main] that is bound conditionally. *)
Record state : Type := State {
  heap : list obj;
  sys_stdout : ref;
  sys___stdout__ : ref;
  files : list (string * ref);
  local_result : option value
}.

Definition with_heap (h : list obj) (w : state) : state :=
  match w with
  | State _ out out0 fs res => State h out out0 fs res
  end.
Definition with_sys_stdout (r : ref) (w : state) : state :=
  match w with
  | State h _ out0 fs res => State h r out0 fs res
  end.
Definition with_files (fs : list (string * ref)) (w : state) : state :=
  match w with
  | State h out out0 _ res => State h out out0 fs res
  end.
Definition with_local_result (v : option value) (w : state) : state :=
  match w with
  | State h out out0 fs _ => State h out out0 fs v
  end.

(** *** Statements: state passing with exceptions *)

Inductive outcome (A : Type) : Type :=
  | Ok (a : A)
  | Raise (e : exn).
Arguments Ok {A} a.
Arguments Raise {A} e.

Definition M (A : Type) : Type := state -> outcome A * state.

Definition ret {A} (a : A) : M A := fun w => (Ok a, w).
Definition raise {A} (e : exn) : M A := fun w => (Raise e, w).
Definition bind {A B} (m : M A) (k : A -> M B) : M B :=
  fun w =>
    match m w with
    | (Ok a, w') => k a w'
    | (Raise e, w') => (Raise e, w')
    end.

Definition get {A} (f : state -> A) : M A := fun w => (Ok (f w), w).
Definition modify (f : state -> state) : M unit := fun w => (Ok tt, f w).

(** *** The object store *)

(** Object creation: the new object gets the next free reference. *)
Definition new (o : obj) : M ref :=
  fun w => (Ok (length (heap w)), with_heap (heap w ++ [o]) w).

Definition deref (r : ref) : M obj :=
  fun w =>
    match heap w !! r with
    | Some o => (Ok o, w)
    | None => (Raise (TypeError "dangling reference"), w)
    end.

Definition store (r : ref) (o : obj) : M unit :=
  modify (fun w => with_heap (<[r := o]> (heap w)) w).

(** *** Text streams ([io.TextIOWrapper]) *)

Definition closed_file : exn := ValueError "I/O operation on closed file.".

(** [open(filename, 'w', encoding='utf-8')]: a fresh, empty stream; a file
    of that name that existed before is truncated, that is, replaced. *)
Definition open_w (filename : string) : M ref :=
  bind (new (OStream (Stream [] [] false))) (fun f =>
  bind (modify (fun w => with_files ((filename, f) :: files w) w)) (fun _ =>
  ret f)).

(** [f.write(message)] on a stream. *)
Definition file_write (f : ref) (message : string) : M unit :=
  bind (deref f) (fun o =>
  match o with
  | OStream s =>
      if closed s then raise closed_file
      else store f (OStream (Stream (delivered s) (pending s ++ [message]) false))
  | _ => raise (AttributeError "write")
  end).

(** [f.flush()] on a stream. *)
Definition file_flush (f : ref) : M unit :=
  bind (deref f) (fun o =>
  match o with
  | OStream s =>
      if closed s then raise closed_file
      else store f (OStream (Stream (delivered s ++ pending s) [] false))
  | _ => raise (AttributeError "flush")
  end).

(** [f.close()] on a stream: flushes, then closes; closing twice is
    allowed. *)
Definition file_close (f : ref) : M unit :=
  bind (deref f) (fun o =>
  match o with
  | OStream s =>
      if closed s then ret tt
      else store f (OStream (Stream (delivered s ++ pending s) [] true))
  | _ => raise (AttributeError "close")
  end).

(** The stream behind the file called [filename], and the content of the
    file: all the chunks written to it, concatenated. *)
Definition file_ref (w : state) (filename : string) : option ref :=
  match List.find (fun e => String.eqb (fst e) filename) (files w) with
  | Some (_, f) => Some f
  | None => None
  end.

Definition file_stream (w : state) (filename : string) : option stream :=
  match file_ref w filename with
  | Some f =>
      match heap w !! f with
      | Some (OStream s) => Some s
      | _ => None
      end
  | None => None
  end.

Definition read_file (w : state) (filename : string) : option string :=
  match file_stream w filename with
  | Some s => Some (String.concat "" (received s))
  | None => None
  end.

End Py.

Export Py.

Declare Scope py_scope.
Delimit Scope py_scope with py.
Notation "x <- m ;; k" := (bind m (fun x => k))
  (at level 100, m at next level, right associativity) : py_scope.
Notation "m ;; k" := (bind m (fun _ => k))
  (at level 100, right associativity) : py_scope.
Local Open Scope py_scope.


(** ** agents.py *)

Module agents.

Definition market_researcher_role : string :=
  "Market Research Analyst".

Definition market_researcher_goal : string :=
  "Analyze existing basketball league management solutions and identify market opportunities".

Definition market_researcher_backstory : string := unlines
  [ "You are an expert market researcher specializing in sports technology ";
    "            and youth sports management platforms. You have deep knowledge of the competitive ";
    "            landscape and understand what makes sports leagues successful. You're skilled at ";
    "            identifying market gaps and opportunities." ].

Definition ux_researcher_role : string :=
  "UX Research Specialist".

Definition ux_researcher_goal : string :=
  "Define user personas, needs, and journey maps for basketball league stakeholders".

Definition ux_researcher_backstory : string := unlines
  [ "You are a UX researcher with extensive experience in sports applications ";
    "            and community platforms. You understand the needs of parents, coaches, players, league ";
    "            administrators, and referees. You excel at creating detailed user personas and ";
    "            identifying pain points in current solutions." ].

Definition technical_architect_role : string :=
  "Technical Architecture Expert".

Definition technical_architect_goal : string :=
  "Design scalable technical architecture for basketball league management platform".

Definition technical_architect_backstory : string := unlines
  [ "You are a senior technical architect with expertise in building scalable ";
    "            SaaS platforms. You have experience with real-time sports applications, mobile development, ";
    "            and handling complex scheduling algorithms. You understand cloud infrastructure, ";
    "            database design, and API architecture." ].

Definition feature_analyst_role : string :=
  "Feature Priority Analyst".

Definition feature_analyst_goal : string :=
  "Define and prioritize features based on user needs and technical feasibility".

Definition feature_analyst_backstory : string := unlines
  [ "You are a product analyst specializing in sports management software. ";
    "            You excel at breaking down complex requirements into actionable features and creating ";
    "            priority matrices based on user value and implementation effort. You understand ";
    "            MVP development and iterative product delivery." ].

Definition compliance_expert_role : string :=
  "Youth Sports Compliance and Safety Expert".

Definition compliance_expert_goal : string :=
  "Ensure all legal, safety, and compliance requirements for youth sports are addressed".

Definition compliance_expert_backstory : string := unlines
  [ "You are an expert in youth sports regulations, child safety online (COPPA), ";
    "            data privacy laws, and sports organization compliance. You understand background check ";
    "            requirements, insurance needs, and safety protocols for youth sports leagues. ";
    "            You're familiar with both national and state-specific requirements." ].

Definition business_strategist_role : string :=
  "Business Strategy Consultant".

Definition business_strategist_goal : string :=
  "Develop monetization strategy and business model for sustainable growth".

Definition business_strategist_backstory : string := unlines
  [ "You are a business strategist with deep experience in SaaS platforms ";
    "            and sports technology. You understand various monetization models, pricing strategies, ";
    "            and growth tactics for B2B2C platforms. You can analyze unit economics and create ";
    "            sustainable business models." ].

Definition ui_designer_role : string :=
  "UI/Visual Design Specialist".

Definition ui_designer_goal : string :=
  "Create comprehensive UI design system and interface specifications for basketball league platform".

Definition ui_designer_backstory : string := unlines
  [ "You are a senior UI designer specializing in sports applications ";
    "            and mobile-first design. You have extensive experience designing interfaces for ";
    "            diverse user groups from tech-savvy teenagers to parent volunteers. You understand ";
    "            modern design trends, accessibility standards (WCAG 2.1), and how to create ";
    "            design systems that scale. You're skilled at creating interfaces that are both ";
    "            visually appealing and highly functional, with expertise in color psychology, ";
    "            typography, interaction design, and responsive layouts. You know how to balance ";
    "            fun, engaging elements for youth with professional needs of league administrators." ].

(** [BasketballLeagueAgents()]: the class has no [__init__] and no
    attributes. *)
Definition BasketballLeagueAgents : M ref := new (OInstance "BasketballLeagueAgents").

Definition market_researcher (self : ref) : M ref :=
  new (OAgent {|
    role := market_researcher_role;
    goal := market_researcher_goal;
    backstory := market_researcher_backstory;
    verbose := true;
    allow_delegation := false;
    max_iter := 3 |}).

Definition ux_researcher (self : ref) : M ref :=
  new (OAgent {|
    role := ux_researcher_role;
    goal := ux_researcher_goal;
    backstory := ux_researcher_backstory;
    verbose := true;
    allow_delegation := false;
    max_iter := 3 |}).

Definition technical_architect (self : ref) : M ref :=
  new (OAgent {|
    role := technical_architect_role;
    goal := technical_architect_goal;
    backstory := technical_architect_backstory;
    verbose := true;
    allow_delegation := false;
    max_iter := 3 |}).

Definition feature_analyst (self : ref) : M ref :=
  new (OAgent {|
    role := feature_analyst_role;
    goal := feature_analyst_goal;
    backstory := feature_analyst_backstory;
    verbose := true;
    allow_delegation := false;
    max_iter := 3 |}).

Definition compliance_expert (self : ref) : M ref :=
  new (OAgent {|
    role := compliance_expert_role;
    goal := compliance_expert_goal;
    backstory := compliance_expert_backstory;
    verbose := true;
    allow_delegation := false;
    max_iter := 3 |}).

Definition business_strategist (self : ref) : M ref :=
  new (OAgent {|
    role := business_strategist_role;
    goal := business_strategist_goal;
    backstory := business_strategist_backstory;
    verbose := true;
    allow_delegation := false;
    max_iter := 3 |}).

Definition ui_designer (self : ref) : M ref :=
  new (OAgent {|
    role := ui_designer_role;
    goal := ui_designer_goal;
    backstory := ui_designer_backstory;
    verbose := true;
    allow_delegation := false;
    max_iter := 3 |}).

(** The methods of the class, in the order of their definition. *)
Inductive method : Type :=
  | Market_researcher
  | Ux_researcher
  | Technical_architect
  | Feature_analyst
  | Compliance_expert
  | Business_strategist
  | Ui_designer.

Definition methods : list method :=
  [ Market_researcher; Ux_researcher; Technical_architect; Feature_analyst;
    Compliance_expert; Business_strategist; Ui_designer ].

Definition call (m : method) : ref -> M ref :=
  match m with
  | Market_researcher => market_researcher
  | Ux_researcher => ux_researcher
  | Technical_architect => technical_architect
  | Feature_analyst => feature_analyst
  | Compliance_expert => compliance_expert
  | Business_strategist => business_strategist
  | Ui_designer => ui_designer
  end.

End agents.

(** ** tasks.py *)

Module tasks.

Definition market_research_task_description : string := unlines
  [ "Conduct comprehensive market research on basketball league management platforms:";
    "            ";
    "            1. Identify and analyze 10-15 existing solutions including:";
    "               - TeamSnap, SportsEngine, LeagueApps, GameChanger";
    "               - Blue Sombrero, TeamSideline, Tourney Machine";
    "               - Any Phoenix/Arizona specific solutions";
    "            ";
    "            2. For each platform, analyze:";
    "               - Core features and functionality";
    "               - Pricing models and tiers";
    "               - Target market (youth, adult, professional)";
    "               - User reviews and pain points";
    "               - Market share and adoption";
    "            ";
    "            3. Identify market gaps and opportunities:";
    "               - Underserved features";
    "               - Common user complaints";
    "               - Regional specific needs for Phoenix/Arizona";
    "               - Integration opportunities";
    "            ";
    "            Provide a detailed competitive analysis matrix and market opportunity report." ].

Definition market_research_task_expected_output : string :=
  "Comprehensive market analysis report with competitive matrix and opportunity identification".

Definition user_research_task_description : string := unlines
  [ "Define user personas and journey maps for basketball league management:";
    "            ";
    "            1. Create detailed personas for:";
    "               - League Administrators/Commissioners";
    "               - Team Coaches (volunteer and professional)";
    "               - Parents/Guardians";
    "               - Players (different age groups: 6-8, 9-12, 13-15, 16-18)";
    "               - Referees and Officials";
    "               - Scorekeepers and Volunteers";
    "               - Spectators/Fans";
    "            ";
    "            2. For each persona, define:";
    "               - Demographics and characteristics";
    "               - Goals and motivations";
    "               - Pain points and frustrations";
    "               - Technology comfort level";
    "               - Device preferences (mobile vs desktop)";
    "               - Feature priorities";
    "            ";
    "            3. Create user journey maps for key scenarios:";
    "               - Season registration and team formation";
    "               - Weekly game scheduling and updates";
    "               - Game day operations";
    "               - End of season tournaments";
    "               - Communication flows";
    "            ";
    "            Include accessibility considerations and multilingual needs." ].

Definition user_research_task_expected_output : string :=
  "Detailed user personas and journey maps with pain points and opportunities".

Definition technical_requirements_task_description : string := unlines
  [ "Design technical architecture for scalable basketball league platform:";
    "            ";
    "            1. Platform Architecture:";
    "               - Mobile app requirements (iOS/Android native vs React Native vs Flutter)";
    "               - Web application architecture";
    "               - API design (REST vs GraphQL)";
    "               - Real-time features (live scoring, notifications)";
    "            ";
    "            2. Core Technical Components:";
    "               - User authentication and authorization";
    "               - Database design for leagues, teams, players, games";
    "               - Scheduling algorithm requirements";
    "               - Payment processing integration";
    "               - Communication systems (email, SMS, push notifications)";
    "            ";
    "            3. Infrastructure Requirements:";
    "               - Cloud platform recommendation (AWS, Google Cloud, Azure)";
    "               - Scalability considerations (concurrent users, data storage)";
    "               - Performance requirements (response times, offline capability)";
    "               - Security and data privacy measures";
    "            ";
    "            4. Integration Requirements:";
    "               - Calendar sync (Google, Apple, Outlook)";
    "               - Social media sharing";
    "               - Video streaming/highlight integration";
    "               - Statistics and analytics platforms";
    "               - Payment gateways";
    "            ";
    "            Provide technology stack recommendations with justifications." ].

Definition technical_requirements_task_expected_output : string :=
  "Complete technical architecture document with technology recommendations".

Definition feature_prioritization_task_description : string := unlines
  [ "Create prioritized feature list based on research findings:";
    "            ";
    "            1. Core MVP Features (Must Have):";
    "               - Essential features for basic league operation";
    "               - Minimum viable product definition";
    "            ";
    "            2. Phase 2 Features (Should Have):";
    "               - Enhanced user experience features";
    "               - Competitive differentiation features";
    "            ";
    "            3. Phase 3 Features (Nice to Have):";
    "               - Advanced features for mature product";
    "               - Innovation opportunities";
    "            ";
    "            4. For each feature, provide:";
    "               - User story format";
    "               - Acceptance criteria";
    "               - Effort estimation (T-shirt sizes: S, M, L, XL)";
    "               - Value score (1-10)";
    "               - Dependencies";
    "            ";
    "            5. Create feature roadmap:";
    "               - 3-month MVP timeline";
    "               - 6-month enhanced version";
    "               - 12-month full platform";
    "            ";
    "            Consider Phoenix basketball league specific needs and requirements." ].

Definition feature_prioritization_task_expected_output : string :=
  "Prioritized feature list with roadmap and implementation timeline".

Definition compliance_review_task_description : string := unlines
  [ "Analyze compliance and safety requirements for youth basketball leagues:";
    "            ";
    "            1. Legal Requirements:";
    "               - COPPA compliance for users under 13";
    "               - Data privacy laws (CCPA, GDPR if applicable)";
    "               - Terms of service and privacy policy requirements";
    "               - Liability and waiver management";
    "            ";
    "            2. Youth Sports Safety:";
    "               - Background check integration for coaches/volunteers";
    "               - SafeSport compliance";
    "               - Medical information and emergency contact management";
    "               - Concussion protocols and injury tracking";
    "               - Insurance requirements";
    "            ";
    "            3. League Governance:";
    "               - Age verification systems";
    "               - Roster eligibility rules";
    "               - Playing time regulations";
    "               - Code of conduct enforcement";
    "            ";
    "            4. Platform Specific:";
    "               - Photo/video sharing permissions";
    "               - Communication boundaries (coach-player messaging)";
    "               - Parent/guardian consent workflows";
    "               - Data retention policies";
    "            ";
    "            5. Arizona/Phoenix Specific:";
    "               - State specific requirements";
    "               - Local league regulations";
    "               - Heat safety protocols";
    "            ";
    "            Provide compliance checklist and implementation recommendations." ].

Definition compliance_review_task_expected_output : string :=
  "Comprehensive compliance requirements document with implementation guidelines".

Definition business_model_task_description : string := unlines
  [ "Develop comprehensive business model and monetization strategy:";
    "            ";
    "            1. Revenue Models Analysis:";
    "               - SaaS subscription tiers (league, team, individual)";
    "               - Transaction fees (registration, payments)";
    "               - Freemium vs paid features";
    "               - Marketplace opportunities (equipment, photography)";
    "               - Sponsorship and advertising options";
    "            ";
    "            2. Pricing Strategy:";
    "               - Competitive pricing analysis";
    "               - Value-based pricing model";
    "               - Pricing tiers and packages";
    "               - Seasonal pricing considerations";
    "               - Phoenix market pricing sensitivity";
    "            ";
    "            3. Customer Acquisition:";
    "               - Go-to-market strategy";
    "               - Partnership opportunities (schools, rec centers)";
    "               - Referral and viral growth features";
    "               - Customer acquisition cost estimates";
    "            ";
    "            4. Financial Projections:";
    "               - Unit economics per league/team/player";
    "               - Revenue projections (Year 1-3)";
    "               - Cost structure analysis";
    "               - Break-even analysis";
    "               - Funding requirements";
    "            ";
    "            5. Growth Strategy:";
    "               - Geographic expansion plan";
    "               - Sport expansion opportunities (beyond basketball)";
    "               - Platform ecosystem development";
    "               - Partnership and integration strategy";
    "            ";
    "            Provide detailed business plan with financial model." ].

Definition business_model_task_expected_output : string :=
  "Complete business model with monetization strategy and financial projections".

Definition ui_design_task_description : string := unlines
  [ "Create comprehensive UI design system and interface specifications:";
    "            ";
    "            1. Visual Design System:";
    "               - Color palette (primary, secondary, accent, semantic colors)";
    "               - Typography scale (fonts, sizes, weights, line heights)";
    "               - Spacing system (padding, margins, grid)";
    "               - Border radius, shadows, and effects";
    "               - Icon style and library recommendations";
    "               - Motion and animation principles";
    "            ";
    "            2. Component Library Specifications:";
    "               - Buttons (primary, secondary, ghost, icon, floating action)";
    "               - Form elements (inputs, selects, checkboxes, date pickers)";
    "               - Cards (team cards, player cards, game cards, stat cards)";
    "               - Navigation (top nav, bottom nav, drawer, breadcrumbs)";
    "               - Tables and data displays (standings, schedules, rosters)";
    "               - Modals, alerts, and notifications";
    "               - Loading states and empty states";
    "            ";
    "            3. Key Screen Layouts (Mobile-First):";
    "               - Landing page/marketing site";
    "               - Registration and onboarding flow";
    "               - Dashboard layouts for each persona:";
    "                 * Admin dashboard (league overview)";
    "                 * Coach dashboard (team management)";
    "                 * Parent portal (child's schedule/stats)";
    "                 * Player profile (stats and achievements)";
    "               - Game day screens:";
    "                 * Live scoring interface";
    "                 * Roster/lineup management";
    "                 * Shot clock/game clock display";
    "               - Schedule views (calendar, list, grid)";
    "               - Communication interfaces (announcements, messaging)";
    "               - Settings and profile screens";
    "            ";
    "            4. Responsive Design Strategy:";
    "               - Mobile breakpoints (320px, 375px, 414px)";
    "               - Tablet breakpoints (768px, 1024px)";
    "               - Desktop breakpoints (1280px, 1440px, 1920px)";
    "               - Touch target sizes for mobile";
    "               - Landscape vs portrait considerations";
    "            ";
    "            5. Interaction Patterns:";
    "               - Navigation patterns (tab bar vs hamburger)";
    "               - Data input patterns (forms, quick actions)";
    "               - Gesture controls (swipe, pull-to-refresh)";
    "               - Feedback mechanisms (haptic, visual, audio)";
    "               - Progressive disclosure strategies";
    "            ";
    "            6. Accessibility and Inclusivity:";
    "               - WCAG 2.1 AA compliance requirements";
    "               - Color contrast ratios";
    "               - Font size minimums";
    "               - Touch target sizes";
    "               - Screen reader considerations";
    "               - Support for reduced motion";
    "            ";
    "            7. Platform-Specific Considerations:";
    "               - iOS vs Android design differences";
    "               - Web vs native app adaptations";
    "               - PWA capabilities and constraints";
    "               - Offline mode UI patterns";
    "            ";
    "            8. Brand and Personality:";
    "               - Visual tone (professional vs playful balance)";
    "               - Age-appropriate design for youth";
    "               - Team customization options";
    "               - White-label considerations";
    "            ";
    "            9. Performance Guidelines:";
    "               - Image optimization requirements";
    "               - Animation performance budgets";
    "               - Lazy loading strategies";
    "               - Critical rendering path elements";
    "            ";
    "            Provide detailed UI specifications document with visual examples and implementation guidelines." ].

Definition ui_design_task_expected_output : string :=
  "Comprehensive UI design system documentation with component specifications and screen layouts".

(** [BasketballLeagueTasks()]: no [__init__], no attributes. *)
Definition BasketballLeagueTasks : M ref := new (OInstance "BasketballLeagueTasks").

Definition market_research_task (self agent : ref) : M ref :=
  new (OTask {|
    description := market_research_task_description;
    agent := agent;
    expected_output := market_research_task_expected_output;
    context := None;
    output := None |}).

Definition user_research_task (self agent : ref) : M ref :=
  new (OTask {|
    description := user_research_task_description;
    agent := agent;
    expected_output := user_research_task_expected_output;
    context := None;
    output := None |}).

Definition technical_requirements_task (self agent : ref) : M ref :=
  new (OTask {|
    description := technical_requirements_task_description;
    agent := agent;
    expected_output := technical_requirements_task_expected_output;
    context := None;
    output := None |}).

Definition feature_prioritization_task (self agent : ref) (context : list ref) : M ref :=
  new (OTask {|
    description := feature_prioritization_task_description;
    agent := agent;
    expected_output := feature_prioritization_task_expected_output;
    context := Some context;
    output := None |}).

Definition compliance_review_task (self agent : ref) : M ref :=
  new (OTask {|
    description := compliance_review_task_description;
    agent := agent;
    expected_output := compliance_review_task_expected_output;
    context := None;
    output := None |}).

Definition business_model_task (self agent : ref) (context : list ref) : M ref :=
  new (OTask {|
    description := business_model_task_description;
    agent := agent;
    expected_output := business_model_task_expected_output;
    context := Some context;
    output := None |}).

Definition ui_design_task (self agent : ref) (context : list ref) : M ref :=
  new (OTask {|
    description := ui_design_task_description;
    agent := agent;
    expected_output := ui_design_task_expected_output;
    context := Some context;
    output := None |}).

(** The methods of the class, in the order of their definition. *)
Inductive method : Type :=
  | Market_research_task
  | User_research_task
  | Technical_requirements_task
  | Feature_prioritization_task
  | Compliance_review_task
  | Business_model_task
  | Ui_design_task.

Definition methods : list method :=
  [ Market_research_task; User_research_task; Technical_requirements_task;
    Feature_prioritization_task; Compliance_review_task; Business_model_task;
    Ui_design_task ].

(** A call [tasks.m(agent)] or [tasks.m(agent, context=context)].  The
    methods without a [context] parameter reject the keyword
    ([TypeError]); those with one require it. *)
Definition call (m : method) (self agent : ref) (context : option (list ref)) : M ref :=
  match m, context with
  | Market_research_task, None => market_research_task self agent
  | User_research_task, None => user_research_task self agent
  | Technical_requirements_task, None => technical_requirements_task self agent
  | Compliance_review_task, None => compliance_review_task self agent
  | Feature_prioritization_task, Some c => feature_prioritization_task self agent c
  | Business_model_task, Some c => business_model_task self agent c
  | Ui_design_task, Some c => ui_design_task self agent c
  | _, Some _ => raise (TypeError "got an unexpected keyword argument 'context'")
  | _, None => raise (TypeError "missing 1 required positional argument: 'context'")
  end.

End tasks.

(** ** main.py *)

Module main.

(** *** class OutputCapture *)

(** [OutputCapture(filename)], that is, [__init__]. *)
Definition OutputCapture (filename : string) : M ref :=
  terminal <- get sys_stdout;;
  log <- open_w filename;;
  new (OCapture terminal log).

Definition OutputCapture_write (self : ref) (message : string) : M unit :=
  o <- deref self;;
  match o with
  | OCapture terminal log =>
      (file_write terminal message;;
       file_write log message)
  | _ => raise (AttributeError "terminal")
  end.

Definition OutputCapture_flush (self : ref) : M unit :=
  o <- deref self;;
  match o with
  | OCapture terminal log =>
      (file_flush terminal;;
       file_flush log)
  | _ => raise (AttributeError "terminal")
  end.

Definition OutputCapture_close (self : ref) : M unit :=
  o <- deref self;;
  match o with
  | OCapture terminal log => file_close log
  | _ => raise (AttributeError "log")
  end.

(** *** Method calls on whatever [sys.stdout] refers to *)

Definition call_write (r : ref) (message : string) : M unit :=
  o <- deref r;;
  match o with
  | OStream _ => file_write r message
  | OCapture _ _ => OutputCapture_write r message
  | _ => raise (AttributeError "write")
  end.

Definition call_close (r : ref) : M unit :=
  o <- deref r;;
  match o with
  | OStream _ => file_close r
  | OCapture _ _ => OutputCapture_close r
  | _ => raise (AttributeError "close")
  end.

(** [print(s)]: the text, then the line end, each by a call of
    [sys.stdout.write]. *)
Definition print (s : string) : M unit :=
  out <- get sys_stdout;;
  call_write out s;;
  call_write out nl.

(** *** The environment of a run *)

(** What the framework does during [crew.kickoff()], as far as the driver
    can observe it: it writes its progress to [sys.stdout] and it sets the
    [output] attribute of tasks of the crew ([None]: it removes the
    attribute); positions count from 0 in the crew's task list, a position
    beyond the list is ignored. *)
Inductive kick_event : Type :=
  | Say (message : string)
  | SetOutput (position : nat) (v : option value).

(** One run of the program: the two readings of the clock, already
    formatted by [strftime]; the behaviour of [crew.kickoff()]; and, to
    cover a failure while the report is written, the operation on the
    report file that raises, if any (0: [open], [k+1]: the [write] issued
    after [k] chunks have been written). *)
Record environment : Type := Environment {
  strftime_start : string;
  strftime_report : string;
  kick_events : list kick_event;
  kick_outcome : outcome value;
  report_fault : option (nat * exn)
}.

Definition set_output (t : ref) (v : option value) : M unit :=
  o <- deref t;;
  match o with
  | OTask tk =>
      store t (OTask (mkTask (description tk) (agent tk) (expected_output tk)
                             (context tk) v))
  | _ => ret tt
  end.

Definition kick_step (crew : ref) (ev : kick_event) : M unit :=
  match ev with
  | Say message =>
      (out <- get sys_stdout;;
       call_write out message)
  | SetOutput i v =>
      (o <- deref crew;;
       match o with
       | OCrew c =>
           match crew_tasks c !! i with
           | Some t => set_output t v
           | None => ret tt
           end
       | _ => raise (AttributeError "tasks")
       end)
  end.

Fixpoint run_events (crew : ref) (evs : list kick_event) : M unit :=
  match evs with
  | [] => ret tt
  | ev :: rest =>
      (kick_step crew ev;;
       run_events crew rest)
  end.

(** [crew.kickoff()]. *)
Definition kickoff (env : environment) (crew : ref) : M value :=
  run_events crew (kick_events env);;
  match kick_outcome env with
  | Ok v => ret v
  | Raise e => raise e
  end.

(** *** Statements of [main] *)

(** [getattr(t, 'output')], with [None] when [hasattr(t, 'output')] is
    false. *)
Definition getattr_output (t : ref) : M (option value) :=
  o <- deref t;;
  match o with
  | OTask tk => ret (output tk)
  | _ => ret None
  end.

(** [open(markdown_filename, "w", encoding="utf-8")] for the report. *)
Definition report_open (env : environment) (filename : string) : M ref :=
  match report_fault env with
  | Some (O, e) => raise e
  | _ => open_w filename
  end.

(** [f.write(chunk)] on the report file. *)
Definition report_write (env : environment) (f : ref) (chunk : string) : M unit :=
  o <- deref f;;
  match o, report_fault env with
  | OStream s, Some (k, e) =>
      if Nat.eqb k (S (length (received s))) then raise e
      else file_write f chunk
  | _, _ => file_write f chunk
  end.

(** [with f: body] for an open file [f]: the file is closed when the body
    is left, also by an exception, which then propagates. *)
Definition with_file {A} (f : ref) (body : M A) : M A :=
  fun w =>
    match body w with
    | (Ok a, w1) =>
        match file_close f w1 with
        | (Ok _, w2) => (Ok a, w2)
        | (Raise e, w2) => (Raise e, w2)
        end
    | (Raise e, w1) => (Raise e, snd (file_close f w1))
    end.

(** [try: body / except Exception as e: handler e / finally: final]. *)
Definition try_except_Exception_finally
    (body : M unit) (handler : exn -> M unit) (final : M unit) : M unit :=
  fun w =>
    let (r1, w1) := body w in
    let (r2, w2) :=
      match r1 with
      | Ok _ => (Ok tt, w1)
      | Raise e => if isinstance_Exception e then handler e w1 else (Raise e, w1)
      end in
    match final w2 with
    | (Ok _, w3) => (r2, w3)
    | (Raise e, w3) => (Raise e, w3)
    end.

(** [if hasattr(t, 'output') and t.output: f.write(str(t.output) + "\n\n")]
    [else: f.write(fallback)]. *)
Definition write_output_or
    (env : environment) (f t : ref) (fallback : string) : M unit :=
  o <- getattr_output t;;
  match o with
  | Some v =>
      if truthy v then report_write env f (str v +:+ nl +:+ nl)
      else report_write env f fallback
  | None => report_write env f fallback
  end.

(** The local variables of [main] that are bound before the [try]. *)
Record locals : Type := Locals {
  full_output_filename : string;
  timestamp : string;
  market_researcher : ref;
  ux_researcher : ref;
  technical_architect : ref;
  feature_analyst : ref;
  compliance_expert : ref;
  business_strategist : ref;
  ui_designer : ref;
  market_research : ref;
  user_research : ref;
  technical_requirements : ref;
  compliance_review : ref;
  feature_prioritization : ref;
  ui_design : ref;
  business_model : ref;
  all_tasks : list ref;
  crew : ref
}.

(** Lines 29 to 103: output capture, agents, tasks, crew. *)
Definition main_setup (env : environment) : M locals :=
  print "🏀 Starting Basketball League Management App Research...";;
  print (str_mul "=" 60);;
  let timestamp := strftime_start env in
  let full_output_filename := "basketball_research_FULL_" +:+ timestamp +:+ ".txt" in
  capture <- OutputCapture full_output_filename;;
  modify (with_sys_stdout capture);;
  agents <- agents.BasketballLeagueAgents;;
  market_researcher <- agents.market_researcher agents;;
  ux_researcher <- agents.ux_researcher agents;;
  technical_architect <- agents.technical_architect agents;;
  feature_analyst <- agents.feature_analyst agents;;
  compliance_expert <- agents.compliance_expert agents;;
  business_strategist <- agents.business_strategist agents;;
  ui_designer <- agents.ui_designer agents;;
  tasks <- tasks.BasketballLeagueTasks;;
  market_research <- tasks.market_research_task tasks market_researcher;;
  user_research <- tasks.user_research_task tasks ux_researcher;;
  technical_requirements <- tasks.technical_requirements_task tasks technical_architect;;
  compliance_review <- tasks.compliance_review_task tasks compliance_expert;;
  feature_prioritization <-
    tasks.feature_prioritization_task tasks feature_analyst
      [market_research; user_research; technical_requirements];;
  ui_design <-
    tasks.ui_design_task tasks ui_designer
      [user_research; feature_prioritization];;
  business_model <-
    tasks.business_model_task tasks business_strategist
      [market_research; user_research; feature_prioritization];;
  let all_tasks :=
    [ market_research;
      user_research;
      technical_requirements;
      compliance_review;
      feature_prioritization;
      ui_design;
      business_model ] in
  crew <- new (OCrew {|
    crew_agents :=
      [ market_researcher;
        ux_researcher;
        technical_architect;
        compliance_expert;
        feature_analyst;
        ui_designer;
        business_strategist ];
    crew_tasks := all_tasks;
    process := sequential;
    crew_verbose := true;
    full_output := true |});;
  print (nl +:+ "🚀 Executing research crew with UI Designer... This may take 12-18 minutes.");;
  print ("📝 Full output is being saved to: " +:+ full_output_filename +:+ nl);;
  ret (Locals full_output_filename timestamp
         market_researcher ux_researcher technical_architect feature_analyst
         compliance_expert business_strategist ui_designer
         market_research user_research technical_requirements compliance_review
         feature_prioritization ui_design business_model all_tasks crew).

(** Lines 111 to 175: the body of [with open(markdown_filename, ...) as f]. *)
Definition write_report
    (env : environment) (L : locals) (result : value) (f : ref) : M unit :=
  report_write env f ("# Basketball League Management App - Complete Research Report" +:+ nl +:+ nl);;
  report_write env f ("Generated: " +:+ strftime_report env +:+ nl +:+ nl);;
  report_write env f (str_mul "=" 80 +:+ nl +:+ nl);;
  report_write env f ("## Table of Contents" +:+ nl +:+ nl);;
  report_write env f ("1. [Market Research Analysis](#1-market-research-analysis)" +:+ nl);;
  report_write env f ("2. [User Research & Personas](#2-user-research--personas)" +:+ nl);;
  report_write env f ("3. [Technical Architecture](#3-technical-architecture)" +:+ nl);;
  report_write env f ("4. [Compliance & Safety Requirements](#4-compliance--safety-requirements)" +:+ nl);;
  report_write env f ("5. [Feature Prioritization](#5-feature-prioritization)" +:+ nl);;
  report_write env f ("6. [UI Design System](#6-ui-design-system)" +:+ nl);;
  report_write env f ("7. [Business Model & Monetization](#7-business-model--monetization)" +:+ nl +:+ nl);;
  report_write env f (str_mul "=" 80 +:+ nl +:+ nl);;
  report_write env f ("## 1. Market Research Analysis" +:+ nl +:+ nl);;
  write_output_or env f (market_research L)
    ("*Market research output not captured - check full log file*" +:+ nl +:+ nl);;
  report_write env f (str_mul "=" 80 +:+ nl +:+ nl);;
  report_write env f ("## 2. User Research & Personas" +:+ nl +:+ nl);;
  write_output_or env f (user_research L)
    ("*User research output not captured - check full log file*" +:+ nl +:+ nl);;
  report_write env f (str_mul "=" 80 +:+ nl +:+ nl);;
  report_write env f ("## 3. Technical Architecture" +:+ nl +:+ nl);;
  write_output_or env f (technical_requirements L)
    ("*Technical architecture output not captured - check full log file*" +:+ nl +:+ nl);;
  report_write env f (str_mul "=" 80 +:+ nl +:+ nl);;
  report_write env f ("## 4. Compliance & Safety Requirements" +:+ nl +:+ nl);;
  write_output_or env f (compliance_review L)
    ("*Compliance output not captured - check full log file*" +:+ nl +:+ nl);;
  report_write env f (str_mul "=" 80 +:+ nl +:+ nl);;
  report_write env f ("## 5. Feature Prioritization" +:+ nl +:+ nl);;
  write_output_or env f (feature_prioritization L)
    ("*Feature prioritization output not captured - check full log file*" +:+ nl +:+ nl);;
  report_write env f (str_mul "=" 80 +:+ nl +:+ nl);;
  report_write env f ("## 6. UI Design System" +:+ nl +:+ nl);;
  write_output_or env f (ui_design L)
    ("*UI design output not captured - check full log file*" +:+ nl +:+ nl);;
  report_write env f (str_mul "=" 80 +:+ nl +:+ nl);;
  report_write env f ("## 7. Business Model & Monetization" +:+ nl +:+ nl);;
  (if truthy result then report_write env f (str result +:+ nl +:+ nl)
   else report_write env f
          ("*Business model output not captured - check full log file*" +:+ nl +:+ nl));;
  report_write env f (str_mul "=" 80 +:+ nl +:+ nl);;
  report_write env f ("## End of Report" +:+ nl +:+ nl);;
  report_write env f
    ("For complete details including agent reasoning, see: "
       +:+ full_output_filename L +:+ nl).

Definition markdown_filename (L : locals) : string :=
  "basketball_league_COMPLETE_research_" +:+ timestamp L +:+ ".md".

(** Lines 106 to 181: the body of the [try]. *)
Definition main_try (env : environment) (L : locals) : M unit :=
  result <- kickoff env (crew L);;
  modify (with_local_result (Some result));;
  f <- report_open env (markdown_filename L);;
  with_file f (write_report env L result f);;
  print (nl +:+ str_mul "=" 60);;
  print "✅ Research completed with UI Design!";;
  print ("📄 Complete Markdown report: " +:+ markdown_filename L);;
  print ("📝 Full output log: " +:+ full_output_filename L);;
  print (str_mul "=" 60).

(** Lines 184 and 185: the handler of [except Exception as e]. *)
Definition main_except (e : exn) : M unit :=
  print (nl +:+ "❌ Error occurred: " +:+ exn_message e);;
  print "Partial results may have been saved.".

(** Lines 188 and 189: the [finally] block. *)
Definition main_finally : M unit :=
  out <- get sys_stdout;;
  call_close out;;
  original <- get sys___stdout__;;
  modify (with_sys_stdout original).

(** Line 191: [return result]. *)
Definition return_result : M value :=
  r <- get local_result;;
  match r with
  | Some v => ret v
  | None =>
      raise (UnboundLocalError
               "cannot access local variable 'result' where it is not associated with a value")
  end.

Definition main (env : environment) : M value :=
  L <- main_setup env;;
  try_except_Exception_finally (main_try env L) main_except main_finally;;
  return_result.

(** The interpreter when [main] is called: [sys.stdout] is the
    interpreter's own standard output. *)
Definition boot (console : stream) : state :=
  State [OStream console] 0 0 [] None.

End main.

(** * Properties *)

Import main.

Arguments unlines : simpl never.
Arguments str_mul : simpl never.
Arguments String.append : simpl never.

(** ** Vocabulary of the statements *)

(** *** Descriptors *)

(** A state in which nothing has been created yet; used to read off what a
    factory method creates. *)
Definition blank : state := State [] 0 0 [] None.

(** The descriptor a method of [BasketballLeagueAgents] creates. *)
Definition agent_descriptor (m : agents.method) : option Agent :=
  match heap (snd (agents.call m 0 blank)) with
  | [OAgent a] => Some a
  | _ => None
  end.

(** The descriptor a method of [BasketballLeagueTasks] creates for given
    arguments. *)
Definition task_descriptor
    (m : tasks.method) (agent : ref) (context : option (list ref)) : option Task :=
  match heap (snd (tasks.call m 0 agent context blank)) with
  | [OTask t] => Some t
  | _ => None
  end.

(** Whether the method has a [context] parameter. *)
Definition takes_context (m : tasks.method) : bool :=
  match m with
  | tasks.Feature_prioritization_task
  | tasks.Business_model_task
  | tasks.Ui_design_task => true
  | _ => false
  end.

(** What a call that only creates the object [o] does to the state. *)
Definition allocates (o : obj) (w : state) : outcome ref * state :=
  (Ok (length (heap w)), with_heap (heap w ++ [o]) w).

(** *** Calls on an OutputCapture *)

(** Calls of the two stream methods of an [OutputCapture]. *)
Inductive capture_call : Type :=
  | Write (message : string)
  | Flush.

Definition perform (self : ref) (c : capture_call) : M unit :=
  match c with
  | Write message => OutputCapture_write self message
  | Flush => OutputCapture_flush self
  end.

Fixpoint perform_all (self : ref) (cs : list capture_call) : M unit :=
  match cs with
  | [] => ret tt
  | c :: rest =>
      (perform self c;;
       perform_all self rest)
  end.

(** The messages of a sequence of calls, in order. *)
Fixpoint written (cs : list capture_call) : list string :=
  match cs with
  | [] => []
  | Write message :: rest => message :: written rest
  | Flush :: rest => written rest
  end.

(** *** Tasks in the object store, and sample runs *)

(** Views of the object store. *)
Definition task_at (w : state) (r : ref) : option Task :=
  match heap w !! r with
  | Some (OTask t) => Some t
  | _ => None
  end.

Definition output_of (w : state) (r : ref) : option value :=
  match task_at w r with
  | Some t => output t
  | None => None
  end.

(** The task at [r] carries a non-empty context list. *)
Definition declares_context (w : state) (r : ref) : bool :=
  match task_at w r with
  | Some t =>
      match context t with
      | Some (_ :: _) => true
      | _ => false
      end
  | None => false
  end.

(** [x] is in the context list of the task at [r]. *)
Definition depends_on (w : state) (r x : ref) : Prop :=
  exists (t : Task) (ctx : list ref),
    task_at w r = Some t /\ context t = Some ctx /\ x ∈ ctx.

(** A run with a successful kickoff, used for examples. *)
Definition demo_console : stream := Stream ["$ python main.py"; nl] [] false.

Definition demo_env : environment := {|
  strftime_start := "20250101_120000";
  strftime_report := "2025-01-01 12:30:00";
  kick_events :=
    [ Say "working";
      SetOutput 0 (Some (VStr "market findings"));
      SetOutput 4 (Some VNone);
      SetOutput 6 (Some (VStr "business plan")) ];
  kick_outcome := Ok (VObj true "crew output");
  report_fault := None |}.

(** A run in which the kickoff is interrupted from the keyboard, and one
    in which the framework fails. *)
Definition interrupted_env : environment := {|
  strftime_start := "20250101_120000";
  strftime_report := "2025-01-01 12:30:00";
  kick_events := [Say "working"];
  kick_outcome := Raise (Exn KeyboardInterrupt "");
  report_fault := None |}.

Definition failing_env : environment := {|
  strftime_start := "20250101_120000";
  strftime_report := "2025-01-01 12:30:00";
  kick_events := [Say "working"];
  kick_outcome := Raise (ValueError "no API key");
  report_fault := None |}.

(** A run in which the kickoff succeeds and the disk is full when the
    third chunk of the report is written. *)
Definition disk_full : exn :=
  Exn (ExceptionClass "OSError") "No space left on device".

Definition disk_full_env : environment := {|
  strftime_start := "20250101_120000";
  strftime_report := "2025-01-01 12:30:00";
  kick_events := [Say "working"; SetOutput 0 (Some (VStr "market findings"))];
  kick_outcome := Ok (VStr "final");
  report_fault := Some (3, disk_full) |}.

(** A console that has been closed. *)
Definition closed_console : stream := Stream ["$ python main.py"; nl] [] true.

(** *** The report as the driver is meant to lay it out *)

Definition rule : string := str_mul "=" 80 +:+ nl +:+ nl.

Definition report_head (generated : string) : list string :=
  [ "# Basketball League Management App - Complete Research Report" +:+ nl +:+ nl;
    "Generated: " +:+ generated +:+ nl +:+ nl;
    rule ].

(** Number, title, anchor and the subject named by the fallback note, for
    each of the seven sections. *)
Definition sections : list (string * string * string * string) :=
  [ ("1", "Market Research Analysis", "market-research-analysis", "Market research");
    ("2", "User Research & Personas", "user-research--personas", "User research");
    ("3", "Technical Architecture", "technical-architecture", "Technical architecture");
    ("4", "Compliance & Safety Requirements", "compliance--safety-requirements",
     "Compliance");
    ("5", "Feature Prioritization", "feature-prioritization", "Feature prioritization");
    ("6", "UI Design System", "ui-design-system", "UI design");
    ("7", "Business Model & Monetization", "business-model--monetization",
     "Business model") ].

Definition toc_entry (s : string * string * string * string) : string :=
  let '(n, title, anchor, _) := s in
  n +:+ ". [" +:+ title +:+ "](#" +:+ n +:+ "-" +:+ anchor +:+ ")" +:+ nl.

Definition table_of_contents : list string :=
  ["## Table of Contents" +:+ nl +:+ nl] ++ (toc_entry <$> sections) ++ [nl; rule].

Definition not_captured (s : string * string * string * string) : string :=
  let '(_, _, _, subject) := s in
  "*" +:+ subject +:+ " output not captured - check full log file*" +:+ nl +:+ nl.

(** What a section holds for the value [o] it is filled from: the value as
    text when there is one and it is truthy, the fallback note otherwise. *)
Definition captured_or (o : option value) (fallback : string) : string :=
  match o with
  | Some v => if truthy v then str v +:+ nl +:+ nl else fallback
  | None => fallback
  end.

(** A numbered section filled from [o]. *)
Definition report_section
    (s : string * string * string * string) (o : option value) : list string :=
  let '(n, title, _, _) := s in
  [ "## " +:+ n +:+ ". " +:+ title +:+ nl +:+ nl;
    captured_or o (not_captured s);
    rule ].

Definition report_foot (log_name : string) : list string :=
  [ "## End of Report" +:+ nl +:+ nl;
    "For complete details including agent reasoning, see: " +:+ log_name +:+ nl ].

(** The report whose seven sections are filled from [sources], in the
    order of the table of contents. *)
Definition report_text
    (generated log_name : string) (sources : list (option value)) : string :=
  String.concat ""
    (report_head generated ++ table_of_contents ++
     mjoin (zip_with report_section sections sources) ++
     report_foot log_name).

(** *** The report as the driver writes it, chunk by chunk *)

(** The nine [write] calls of the table of contents: the entry of the last
    section carries the empty line that follows the table. *)
Definition toc_writes : list string :=
  ["## Table of Contents" +:+ nl +:+ nl]
    ++ (toc_entry <$> take 6 sections)
    ++ ((fun s => toc_entry s +:+ nl) <$> drop 6 sections)
    ++ [rule].

(** The 35 chunks of a complete report, one for each [write] call. *)
Definition report_writes
    (generated log_name : string) (sources : list (option value)) : list string :=
  report_head generated ++ toc_writes ++
  mjoin (zip_with report_section sections sources) ++
  report_foot log_name.

(** Writing the chunks [cs] to the stream [s] when the environment
    schedules [fault]: the outcome, and the stream afterwards. *)
Fixpoint write_all (fault : option (nat * exn)) (s : stream) (cs : list string)
    : outcome unit * stream :=
  match cs with
  | [] => (Ok tt, s)
  | c :: rest =>
      match fault with
      | Some (k, e) =>
          if Nat.eqb k (S (length (received s))) then (Raise e, s)
          else write_all fault (Stream (delivered s) (pending s ++ [c]) false) rest
      | None => write_all fault (Stream (delivered s) (pending s ++ [c]) false) rest
      end
  end.

(** *** The console *)

(** What [main] prints before it installs the capture. *)
Definition banner : list string :=
  [ "🏀 Starting Basketball League Management App Research..."; nl;
    str_mul "=" 60; nl ].

(** What it prints, captured, before the kickoff and after the report. *)
Definition launch_lines (log_name : string) : list string :=
  [ nl +:+ "🚀 Executing research crew with UI Designer... This may take 12-18 minutes.";
    nl;
    "📝 Full output is being saved to: " +:+ log_name +:+ nl;
    nl ].

Definition closing_lines (report_name log_name : string) : list string :=
  [ nl +:+ str_mul "=" 60; nl;
    "✅ Research completed with UI Design!"; nl;
    "📄 Complete Markdown report: " +:+ report_name; nl;
    "📝 Full output log: " +:+ log_name; nl;
    str_mul "=" 60; nl ].

(** *** The body of the [try] *)

(** The number of [write] calls that make a complete report. *)
Definition report_length : nat := 35.

(** How the body of the [try] ends: with the exception of the kickoff, or
    with the one the environment schedules for opening the report (number
    0) or for one of its [write] calls (numbers 1 to [report_length]). *)
Definition try_outcome (env : environment) : outcome unit :=
  match kick_outcome env with
  | Raise e => Raise e
  | Ok _ =>
      match report_fault env with
      | Some (k, e) => if Nat.leb k report_length then Raise e else Ok tt
      | None => Ok tt
      end
  end.

(** Whether the run gets as far as opening the report file. *)
Definition report_opened (env : environment) : bool :=
  match kick_outcome env, report_fault env with
  | Raise _, _ => false
  | Ok _, Some (O, _) => false
  | Ok _, _ => true
  end.

(** *** Objects of the crew *)

Definition agent_at (w : state) (r : ref) : option Agent :=
  match heap w !! r with
  | Some (OAgent a) => Some a
  | _ => None
  end.

Definition crew_at (w : state) (r : ref) : option Crew :=
  match heap w !! r with
  | Some (OCrew c) => Some c
  | _ => None
  end.

(** *** The error message *)

(** The handler prints its two lines, to the console and to the log. *)
Definition error_lines (e : exn) : list string :=
  [ nl +:+ "❌ Error occurred: " +:+ exn_message e; nl;
    "Partial results may have been saved."; nl ].

(** ** The two registries *)

Section Registries.

Lemma allocates_frame (o : obj) (w : state) :
  let w' := snd (allocates o w) in
  sys_stdout w' = sys_stdout w /\
  sys___stdout__ w' = sys___stdout__ w /\
  files w' = files w /\
  local_result w' = local_result w /\
  length (heap w') = S (length (heap w)) /\
  forall (r : ref) (x : obj), heap w !! r = Some x -> heap w' !! r = Some x.
Proof.
  destruct w as [h out out0 fs res]. cbn. repeat split; try reflexivity.
  - rewrite length_app. cbn. lia.
  - intros r x Hr. now apply lookup_app_l_Some.
Qed.

Lemma agents_call_allocates (m : agents.method) (self : ref) (w : state) :
  exists a : Agent,
    agent_descriptor m = Some a /\ agents.call m self w = allocates (OAgent a) w.
Proof. destruct m; eexists; split; reflexivity. Qed.

Lemma tasks_call_allocates
    (m : tasks.method) (self agent : ref) (ctx : list ref) (w : state) :
  exists t : Task,
    task_descriptor m agent (if takes_context m then Some ctx else None) = Some t /\
    tasks.call m self agent (if takes_context m then Some ctx else None) w
      = allocates (OTask t) w.
Proof. destruct m; eexists; split; reflexivity. Qed.

End Registries.

(** C2.  The agent registry has exactly seven factory methods.  Each of
    them, on any registry object and in any state, returns a new Agent whose
    fields depend on the method only: a role, a goal and a backstory, none
    of them empty, and the same execution limits, [allow_delegation=False]
    and [max_iter=3].  The seven roles are pairwise different. *)
Theorem agent_registry_seven_descriptors :
  length agents.methods = 7 /\
  NoDup agents.methods /\
  (forall m : agents.method, m ∈ agents.methods) /\
  (forall (m : agents.method) (self : ref) (w : state),
     exists a : Agent,
       agent_descriptor m = Some a /\
       agents.call m self w
         = (Ok (length (heap w)), with_heap (heap w ++ [OAgent a]) w) /\
       role a <> "" /\ goal a <> "" /\ backstory a <> "" /\
       allow_delegation a = false /\ max_iter a = 3%Z) /\
  (forall (m1 m2 : agents.method) (a1 a2 : Agent),
     agent_descriptor m1 = Some a1 -> agent_descriptor m2 = Some a2 ->
     role a1 = role a2 -> m1 = m2).
Proof.
  split; [reflexivity|].
  split.
  { unfold agents.methods.
    repeat (apply NoDup_cons; split;
            [rewrite ?not_elem_of_cons; repeat split;
             solve [discriminate | apply not_elem_of_nil]|]).
    apply NoDup_nil. exact I. }
  split; [intros m; destruct m; unfold agents.methods; repeat constructor|].
  split.
  - intros m self w. destruct m; eexists;
      (split; [reflexivity|]); (split; [reflexivity|]);
      repeat split; try reflexivity; intros H; vm_compute in H; discriminate H.
  - intros m1 m2 a1 a2 H1 H2 Hr.
    destruct m1; injection H1 as <-; destruct m2; injection H2 as <-;
      try reflexivity; vm_compute in Hr; discriminate Hr.
Qed.

(** C10.  The registries are stateless and deterministic.  A factory method
    of [BasketballLeagueAgents], called on any two registry objects in any
    two states, creates Agents with the same field values.  A factory method
    of [BasketballLeagueTasks], called with equal arguments, creates Tasks
    with the same field values (or rejects the arguments with the same
    error, leaving the state as it was).  The only effect of a call is the
    creation of the object it returns: the registry object, every other
    object, [sys.stdout], the files and the local variables stay as they
    were. *)
Theorem registries_stateless_deterministic :
  (forall (m : agents.method) (self1 self2 : ref) (w1 w2 : state),
     exists a : Agent,
       agents.call m self1 w1 = allocates (OAgent a) w1 /\
       agents.call m self2 w2 = allocates (OAgent a) w2) /\
  (forall (m : tasks.method) (self1 self2 agent : ref)
          (ctx : option (list ref)) (w1 w2 : state),
     (exists t : Task,
        tasks.call m self1 agent ctx w1 = allocates (OTask t) w1 /\
        tasks.call m self2 agent ctx w2 = allocates (OTask t) w2 /\
        Py.agent t = agent /\ context t = ctx /\ output t = None) \/
     (exists e : exn,
        tasks.call m self1 agent ctx w1 = (Raise e, w1) /\
        tasks.call m self2 agent ctx w2 = (Raise e, w2))) /\
  (forall (o : obj) (w : state),
     let w' := snd (allocates o w) in
     sys_stdout w' = sys_stdout w /\
     sys___stdout__ w' = sys___stdout__ w /\
     files w' = files w /\
     local_result w' = local_result w /\
     length (heap w') = S (length (heap w)) /\
     forall (r : ref) (x : obj), heap w !! r = Some x -> heap w' !! r = Some x).
Proof.
  split; [|split].
  - intros m self1 self2 w1 w2. destruct m; eexists; split; reflexivity.
  - intros m self1 self2 agent ctx w1 w2.
    destruct m, ctx as [c|];
      solve [ left; eexists; repeat split; reflexivity
            | right; eexists; split; reflexivity ].
  - exact allocates_frame.
Qed.

(** ** OutputCapture *)

Section Tee.

(** What one call does to an open stream. *)
Definition stream_after (s : stream) (c : capture_call) : stream :=
  match c with
  | Write message => Stream (delivered s) (pending s ++ [message]) false
  | Flush => Stream (delivered s ++ pending s) [] false
  end.

Lemma received_stream_after (s : stream) (c : capture_call) :
  received (stream_after s c) = received s ++ written [c].
Proof.
  destruct c; unfold received; cbn.
  - now rewrite app_assoc.
  - now rewrite !app_nil_r.
Qed.

Lemma written_app (cs1 cs2 : list capture_call) :
  written (cs1 ++ cs2) = written cs1 ++ written cs2.
Proof.
  induction cs1 as [|[m|] cs1 IH]; cbn; [reflexivity| |assumption].
  now rewrite IH.
Qed.

Lemma received_fold (cs : list capture_call) (s : stream) :
  received (fold_left stream_after cs s) = received s ++ written cs.
Proof.
  revert s. induction cs as [|c cs IH]; intros s; cbn [fold_left].
  - cbn. now rewrite app_nil_r.
  - rewrite IH, received_stream_after.
    rewrite <- app_assoc. f_equal. now destruct c.
Qed.

Lemma closed_fold (cs : list capture_call) (s : stream) :
  closed s = false -> closed (fold_left stream_after cs s) = false.
Proof.
  revert s. induction cs as [|c cs IH]; intros s Hs; cbn [fold_left];
    [assumption|].
  apply IH. now destruct c.
Qed.

Lemma pending_fold_flush (cs : list capture_call) (s : stream) :
  pending (fold_left stream_after (cs ++ [Flush]) s) = [].
Proof. now rewrite fold_left_app. Qed.

Lemma file_write_open (w : state) (f : ref) (s : stream) (message : string) :
  heap w !! f = Some (OStream s) -> closed s = false ->
  file_write f message w
    = (Ok tt, with_heap (<[f := OStream (stream_after s (Write message))]> (heap w)) w).
Proof.
  intros Hf Hs. unfold file_write, bind, deref. rewrite Hf, Hs. reflexivity.
Qed.

Lemma file_flush_open (w : state) (f : ref) (s : stream) :
  heap w !! f = Some (OStream s) -> closed s = false ->
  file_flush f w
    = (Ok tt, with_heap (<[f := OStream (stream_after s Flush)]> (heap w)) w).
Proof.
  intros Hf Hs. unfold file_flush, bind, deref. rewrite Hf, Hs. reflexivity.
Qed.

(** A capture object [self] teeing to the open streams [t] and [l]. *)
Record teeing (w : state) (self t l : ref) (T Lg : stream) : Prop := {
  tee_self : heap w !! self = Some (OCapture t l);
  tee_terminal : heap w !! t = Some (OStream T);
  tee_log : heap w !! l = Some (OStream Lg);
  tee_terminal_open : closed T = false;
  tee_log_open : closed Lg = false;
  tee_distinct : t <> l /\ t <> self /\ l <> self
}.

Lemma perform_teeing (w : state) (self t l : ref) (T Lg : stream) (c : capture_call) :
  teeing w self t l T Lg ->
  exists w' : state,
    perform self c w = (Ok tt, w') /\
    files w' = files w /\
    teeing w' self t l (stream_after T c) (stream_after Lg c).
Proof.
  intros [Hself Ht Hl HT HL (Htl & Hts & Hls)].
  destruct w as [h out out0 fs res]. cbn [heap] in Hself, Ht, Hl.
  pose proof (lookup_lt_Some _ _ _ Ht) as Ht_lt.
  pose proof (lookup_lt_Some _ _ _ Hl) as Hl_lt.
  destruct c as [m|]; cbn [perform].
  - unfold OutputCapture_write, bind at 1, deref. cbn [heap]. rewrite Hself.
    unfold bind. rewrite (file_write_open (State h out out0 fs res) t T m Ht HT).
    erewrite file_write_open; cycle 1.
    { cbn [heap with_heap]. rewrite list_lookup_insert_ne by assumption. exact Hl. }
    { exact HL. }
    eexists. split; [reflexivity|]. split; [reflexivity|].
    split; cbn [heap with_heap files].
    + rewrite !list_lookup_insert_ne by assumption. exact Hself.
    + rewrite list_lookup_insert_ne by congruence.
      now rewrite list_lookup_insert_eq.
    + rewrite list_lookup_insert_eq; [reflexivity|].
      now rewrite length_insert.
    + reflexivity.
    + reflexivity.
    + auto.
  - unfold OutputCapture_flush, bind at 1, deref. cbn [heap]. rewrite Hself.
    unfold bind. rewrite (file_flush_open (State h out out0 fs res) t T Ht HT).
    erewrite file_flush_open; cycle 1.
    { cbn [heap with_heap]. rewrite list_lookup_insert_ne by assumption. exact Hl. }
    { exact HL. }
    eexists. split; [reflexivity|]. split; [reflexivity|].
    split; cbn [heap with_heap files].
    + rewrite !list_lookup_insert_ne by assumption. exact Hself.
    + rewrite list_lookup_insert_ne by congruence.
      now rewrite list_lookup_insert_eq.
    + rewrite list_lookup_insert_eq; [reflexivity|].
      now rewrite length_insert.
    + reflexivity.
    + reflexivity.
    + auto.
Qed.

Lemma perform_all_teeing (cs : list capture_call) :
  forall (w : state) (self t l : ref) (T Lg : stream),
    teeing w self t l T Lg ->
    exists w' : state,
      perform_all self cs w = (Ok tt, w') /\
      files w' = files w /\
      teeing w' self t l (fold_left stream_after cs T) (fold_left stream_after cs Lg).
Proof.
  induction cs as [|c cs IH]; intros w self t l T Lg Htee.
  - exists w. split; [reflexivity|]. split; [reflexivity|exact Htee].
  - destruct (perform_teeing w self t l T Lg c Htee) as (w1 & Hrun & Hfiles & Htee1).
    destruct (IH w1 self t l _ _ Htee1) as (w2 & Hrun2 & Hfiles2 & Htee2).
    exists w2. split; [|split].
    + cbn [perform_all]. unfold bind. rewrite Hrun. exact Hrun2.
    + congruence.
    + exact Htee2.
Qed.

Lemma OutputCapture_teeing (filename : string) (w : state) (T : stream) :
  heap w !! sys_stdout w = Some (OStream T) -> closed T = false ->
  exists (self log : ref) (w1 : state),
    OutputCapture filename w = (Ok self, w1) /\
    files w1 = (filename, log) :: files w /\
    teeing w1 self (sys_stdout w) log T (Stream [] [] false).
Proof.
  intros Ht HT.
  destruct w as [h out out0 fs res]. cbn [heap sys_stdout files] in *.
  pose proof (lookup_lt_Some _ _ _ Ht) as Hlt.
  exists (S (length h)), (length h).
  eexists. split; [|split].
  - unfold OutputCapture, bind, get, open_w, bind, new, modify, ret.
    cbn. rewrite length_app. cbn. rewrite Nat.add_1_r. reflexivity.
  - reflexivity.
  - split; cbn [heap with_heap with_files].
    + rewrite lookup_app_r by (rewrite length_app; cbn; lia).
      rewrite length_app. cbn.
      replace (S (length h) - (length h + 1)) with 0 by lia.
      reflexivity.
    + do 2 (rewrite lookup_app_l by (rewrite ?length_app; cbn; lia)). exact Ht.
    + rewrite lookup_app_l by (rewrite length_app; cbn; lia).
      rewrite lookup_app_r by lia. now rewrite Nat.sub_diag.
    + exact HT.
    + reflexivity.
    + lia.
Qed.

End Tee.

(** C3.  Let an [OutputCapture] be constructed while [sys.stdout] is an open
    stream, and let any sequence of [write] and [flush] calls follow.  Every
    call succeeds; each [write(message)] appends that message to the
    terminal stream and to the log file opened at construction, so the log
    file holds exactly the messages, in order, and the terminal holds what
    it held before followed by the same messages; and a [flush] leaves
    nothing buffered in either stream. *)
Theorem OutputCapture_duplicates_writes
    (filename : string) (w : state) (T : stream) (calls : list capture_call) :
  heap w !! sys_stdout w = Some (OStream T) ->
  closed T = false ->
  exists (self : ref) (w1 w2 : state) (T' Lg' : stream),
    OutputCapture filename w = (Ok self, w1) /\
    perform_all self calls w1 = (Ok tt, w2) /\
    heap w2 !! sys_stdout w = Some (OStream T') /\
    file_stream w2 filename = Some Lg' /\
    received T' = received T ++ written calls /\
    received Lg' = written calls /\
    closed T' = false /\ closed Lg' = false /\
    (forall before : list capture_call,
       calls = before ++ [Flush] -> pending T' = [] /\ pending Lg' = []).
Proof.
  intros Ht HT.
  destruct (OutputCapture_teeing filename w T Ht HT)
    as (self & log & w1 & Hinit & Hfiles1 & Htee1).
  destruct (perform_all_teeing calls w1 self _ log _ _ Htee1)
    as (w2 & Hrun & Hfiles2 & Htee2).
  destruct Htee2 as [_ Ht2 Hl2 _ _ _].
  exists self, w1, w2. do 2 eexists.
  split; [exact Hinit|]. split; [exact Hrun|]. split; [exact Ht2|].
  split.
  { unfold file_stream, file_ref. rewrite Hfiles2, Hfiles1. cbn [List.find fst].
    rewrite String.eqb_refl, Hl2. reflexivity. }
  split; [apply received_fold|].
  split; [apply (received_fold calls (Stream [] [] false))|].
  split; [now apply closed_fold|].
  split; [now apply closed_fold|].
  intros before ->. split; apply pending_fold_flush.
Qed.

(** ** The crew handed to the executor *)

Section Crew.

Lemma tc_decreasing (R : ref -> ref -> Prop) :
  (forall r x : ref, R r x -> x < r) ->
  forall r x : ref, tc R r x -> x < r.
Proof.
  intros HR r x Htc. induction Htc as [r x H|r y x H _ IH].
  - now apply HR.
  - apply HR in H. lia.
Qed.

End Crew.

(** Evaluates the run [t] of a statement on a written-out state and
    records the result as the equation [E]. *)
Ltac evaluate t E :=
  let t0 := eval cbv beta iota delta [ret raise get modify store] in t in
  let t1 := eval cbn in t0 in
  let t2 := eval cbv beta iota delta [ret raise get modify store] in t1 in
  let t3 := eval cbn in t2 in
  assert (E : t = t3) by (vm_compute; reflexivity).

(** C6.  The driver constructs the Crew with [process=Process.sequential]
    and with exactly seven tasks, in this order: market research, user
    research, technical requirements, compliance review, feature
    prioritization, UI design, business model; each of them is the Task
    that the registry method of that name creates for its agent (and, for
    the last three, for its context list). *)
Theorem crew_is_sequential_with_seven_tasks_in_order
    (env : environment) (console : stream) :
  closed console = false ->
  exists (L : locals) (w : state) (c : Crew),
    main_setup env (boot console) = (Ok L, w) /\
    heap w !! crew L = Some (OCrew c) /\
    process c = sequential /\
    length (crew_tasks c) = 7 /\
    crew_tasks c = all_tasks L /\
    crew_tasks c =
      [ market_research L; user_research L; technical_requirements L;
        compliance_review L; feature_prioritization L; ui_design L;
        business_model L ] /\
    NoDup (crew_tasks c) /\
    task_at w <$> crew_tasks c =
      [ task_descriptor tasks.Market_research_task (market_researcher L) None;
        task_descriptor tasks.User_research_task (ux_researcher L) None;
        task_descriptor tasks.Technical_requirements_task (technical_architect L) None;
        task_descriptor tasks.Compliance_review_task (compliance_expert L) None;
        task_descriptor tasks.Feature_prioritization_task (feature_analyst L)
          (Some [market_research L; user_research L; technical_requirements L]);
        task_descriptor tasks.Ui_design_task (ui_designer L)
          (Some [user_research L; feature_prioritization L]);
        task_descriptor tasks.Business_model_task (business_strategist L)
          (Some [market_research L; user_research L; feature_prioritization L]) ] /\
    Forall (fun t => is_Some t) (task_at w <$> crew_tasks c).
Proof.
  intros Hopen. destruct console as [d p c]. cbn in Hopen. subst c.
  evaluate (main_setup env (boot (Stream d p false))) E.
  do 3 eexists. split; [exact E|]. clear E.
  split; [reflexivity|].
  repeat (split; [reflexivity|]).
  split.
  { cbn. repeat (apply NoDup_cons; split;
       [rewrite ?not_elem_of_cons; repeat split;
        solve [discriminate | apply not_elem_of_nil]|]).
    apply NoDup_nil. exact I. }
  split; [reflexivity|].
  cbn. repeat constructor; eexists; reflexivity.
Qed.

(** C7.  In the crew handed to the executor, every task listed in the
    context of a task occurs strictly earlier in the crew's task sequence;
    so the context relation points only backwards in the order of
    execution, and it has no cycle. *)
Theorem context_points_backwards (env : environment) (console : stream) :
  closed console = false ->
  exists (L : locals) (w : state) (c : Crew),
    main_setup env (boot console) = (Ok L, w) /\
    heap w !! crew L = Some (OCrew c) /\
    (forall (i : nat) (r x : ref),
       crew_tasks c !! i = Some r -> depends_on w r x ->
       exists j : nat, j < i /\ crew_tasks c !! j = Some x) /\
    (forall r : ref, ~ tc (depends_on w) r r).
Proof.
  intros Hopen. destruct console as [d p c]. cbn in Hopen. subst c.
  evaluate (main_setup env (boot (Stream d p false))) E.
  do 3 eexists. split; [exact E|]. clear E.
  split; [reflexivity|].
  split.
  - intros i r x Hi (t & ctx & Ht & Hctx & Hx).
    do 7 (destruct i as [|i];
          [ cbn in Hi; injection Hi as <-; cbn in Ht; injection Ht as <-;
            cbn in Hctx; try discriminate Hctx; injection Hctx as <-;
            repeat (apply elem_of_cons in Hx as [->|Hx]);
            try (now apply elem_of_nil in Hx);
            first [ exists 0; split; [lia|reflexivity]
                  | exists 1; split; [lia|reflexivity]
                  | exists 2; split; [lia|reflexivity]
                  | exists 4; split; [lia|reflexivity] ]
          | ]).
    cbn in Hi. discriminate Hi.
  - intros r Hcycle.
    apply (tc_decreasing (depends_on _)) in Hcycle; [lia|].
    clear r Hcycle. intros r x (t & ctx & Ht & Hctx & Hx).
    unfold task_at in Ht. cbn [heap] in Ht.
    do 20 (destruct r as [|r];
           [ cbn in Ht; try discriminate Ht; injection Ht as <-;
             cbn in Hctx; try discriminate Hctx; injection Hctx as <-;
             repeat (apply elem_of_cons in Hx as [->|Hx]);
             try (now apply elem_of_nil in Hx); lia
           | ]).
    cbn in Ht. discriminate Ht.
Qed.

(** C1 (as the code has it).  The task registry has seven factory methods,
    each creating one static task descriptor, and three of them take a
    [context].  Of the seven tasks handed to the executor exactly three
    carry a non-empty context list of earlier tasks: feature prioritization,
    UI design and business model. *)
Theorem three_of_seven_tasks_declare_context
    (env : environment) (console : stream) :
  closed console = false ->
  length tasks.methods = 7 /\
  (forall m : tasks.method, m ∈ tasks.methods) /\
  (forall (m : tasks.method) (self agent : ref) (ctx : list ref) (w : state),
     exists t : Task,
       tasks.call m self agent (if takes_context m then Some ctx else None) w
         = allocates (OTask t) w) /\
  List.filter takes_context tasks.methods =
    [ tasks.Feature_prioritization_task; tasks.Business_model_task;
      tasks.Ui_design_task ] /\
  exists (L : locals) (w : state) (c : Crew),
    main_setup env (boot console) = (Ok L, w) /\
    heap w !! crew L = Some (OCrew c) /\
    length (crew_tasks c) = 7 /\
    List.filter (declares_context w) (crew_tasks c) =
      [ feature_prioritization L; ui_design L; business_model L ] /\
    length (List.filter (declares_context w) (crew_tasks c)) = 3.
Proof.
  intros Hopen. destruct console as [d p c]. cbn in Hopen. subst c.
  split; [reflexivity|].
  split; [intros m; destruct m; unfold tasks.methods; repeat constructor|].
  split.
  { intros m self agent ctx w.
    destruct (tasks_call_allocates m self agent ctx w) as (t & _ & Ht).
    now exists t. }
  split; [reflexivity|].
  evaluate (main_setup env (boot (Stream d p false))) E.
  do 3 eexists. split; [exact E|]. clear E.
  repeat split; reflexivity.
Qed.

(** C1 as stated fails: in the demo run, it is not four of the tasks handed
    to the executor that carry a non-empty context list. *)
Lemma four_tasks_declare_context_refuted :
  ~ (exists (L : locals) (w : state) (c : Crew),
       main_setup demo_env (boot demo_console) = (Ok L, w) /\
       heap w !! crew L = Some (OCrew c) /\
       length (List.filter (declares_context w) (crew_tasks c)) = 4).
Proof.
  intros (L & w & c & E & Hc & Hlen).
  vm_compute in E. injection E as <- <-.
  vm_compute in Hc. injection Hc as <-.
  vm_compute in Hlen. discriminate Hlen.
Qed.

(** ** Writing the report *)

Section Report.

Variable env : environment.
Variable f : ref.

(** Every object other than the file [f] is as in [h0]. *)
Definition elsewhere (h0 : list obj) (w : state) : Prop :=
  forall r : ref, r <> f -> heap w !! r = h0 !! r.

Definition put (s : stream) (w : state) : state :=
  with_heap (<[f := OStream s]> (heap w)) w.

Lemma elsewhere_put (h0 : list obj) (w : state) (s : stream) :
  elsewhere h0 w -> elsewhere h0 (put s w).
Proof.
  intros H r Hr. destruct w as [h out out0 fs res]. cbn.
  rewrite list_lookup_insert_ne by congruence. now apply H.
Qed.

Lemma lookup_put (w : state) (s s' : stream) :
  heap w !! f = Some (OStream s) -> heap (put s' w) !! f = Some (OStream s').
Proof.
  intros H. destruct w as [h out out0 fs res]. cbn in *.
  apply list_lookup_insert_eq. now apply lookup_lt_Some in H.
Qed.

Lemma put_put (w : state) (s s' : stream) : put s' (put s w) = put s' w.
Proof.
  destruct w as [h out out0 fs res]. unfold put. cbn.
  now rewrite list_insert_insert_eq.
Qed.

Lemma put_same (w : state) (s : stream) :
  heap w !! f = Some (OStream s) -> put s w = w.
Proof.
  intros H. destruct w as [h out out0 fs res]. unfold put. cbn in *.
  now rewrite list_insert_id.
Qed.

(** [m] leaves the open file [f] open and changes nothing else; it ends
    normally, or it raises the exception scheduled by the environment. *)
Definition touches_only (h0 : list obj) (m : M unit) : Prop :=
  forall (w : state) (s : stream),
    elsewhere h0 w -> heap w !! f = Some (OStream s) -> closed s = false ->
    exists (r : outcome unit) (s' : stream),
      m w = (r, put s' w) /\ closed s' = false /\
      (r = Ok tt \/ exists k e, report_fault env = Some (k, e) /\ r = Raise e).

(** When no exception is scheduled, [m] appends the chunks [cs] to the open
    file [f] and changes nothing else. *)
Definition appends (h0 : list obj) (cs : list string) (m : M unit) : Prop :=
  report_fault env = None ->
  forall (w : state) (s : stream),
    elsewhere h0 w -> heap w !! f = Some (OStream s) -> closed s = false ->
    m w = (Ok tt, put (Stream (delivered s) (pending s ++ cs) false) w).

Lemma touches_only_seq (h0 : list obj) (m k : M unit) :
  touches_only h0 m -> touches_only h0 k -> touches_only h0 (m ;; k).
Proof.
  intros Hm Hk w s Hw Hf Hs.
  destruct (Hm w s Hw Hf Hs) as (r & s1 & Em & Hs1 & Hr).
  unfold bind. rewrite Em.
  destruct Hr as [-> | (n & e & Hfault & ->)].
  - destruct (Hk (put s1 w) s1) as (r2 & s2 & Ek & Hs2 & Hr2);
      [now apply elsewhere_put | now apply (lookup_put w s) | assumption |].
    exists r2, s2. rewrite Ek, put_put. auto.
  - exists (Raise e), s1. split; [reflexivity|]. split; [assumption|].
    right. exists n, e. auto.
Qed.

Lemma appends_seq (h0 : list obj) (cs1 cs2 : list string) (m k : M unit) :
  appends h0 cs1 m -> appends h0 cs2 k -> appends h0 (cs1 ++ cs2) (m ;; k).
Proof.
  intros Hm Hk Hnone w s Hw Hf Hs.
  unfold bind. rewrite (Hm Hnone w s Hw Hf Hs).
  rewrite (Hk Hnone _ (Stream (delivered s) (pending s ++ cs1) false));
    [| now apply elsewhere_put | now apply (lookup_put w s) | reflexivity].
  cbn [delivered pending]. now rewrite put_put, app_assoc.
Qed.

Lemma report_write_run (chunk : string) (w : state) (s : stream) :
  heap w !! f = Some (OStream s) -> closed s = false ->
  report_write env f chunk w =
    match report_fault env with
    | Some (k, e) =>
        if Nat.eqb k (S (length (received s))) then (Raise e, w)
        else (Ok tt, put (stream_after s (Write chunk)) w)
    | None => (Ok tt, put (stream_after s (Write chunk)) w)
    end.
Proof.
  intros Hf Hs. unfold report_write, bind at 1, deref. rewrite Hf.
  destruct (report_fault env) as [[k e]|].
  - destruct (Nat.eqb k (S (length (received s)))); [reflexivity|].
    now apply file_write_open.
  - now apply file_write_open.
Qed.

Lemma touches_only_report_write (h0 : list obj) (chunk : string) :
  touches_only h0 (report_write env f chunk).
Proof.
  intros w s _ Hf Hs. rewrite (report_write_run chunk w s Hf Hs).
  destruct (report_fault env) as [[k e]|] eqn:Hfault.
  - destruct (Nat.eqb k (S (length (received s)))).
    + exists (Raise e), s. rewrite (put_same w s Hf).
      split; [reflexivity|]. split; [assumption|]. right. exists k, e. auto.
    + eexists _, _. split; [reflexivity|]. auto.
  - eexists _, _. split; [reflexivity|]. auto.
Qed.

Lemma appends_report_write (h0 : list obj) (chunk : string) :
  appends h0 [chunk] (report_write env f chunk).
Proof.
  intros Hnone w s _ Hf Hs. rewrite (report_write_run chunk w s Hf Hs), Hnone.
  reflexivity.
Qed.

Lemma appends_if (h0 : list obj) (b : bool) (chunk1 chunk2 : string) :
  appends h0 [if b then chunk1 else chunk2]
    (if b then report_write env f chunk1 else report_write env f chunk2).
Proof. destruct b; apply appends_report_write. Qed.

Lemma getattr_output_elsewhere (h0 : list obj) (t : ref) (tk : Task) (w : state) :
  t <> f -> h0 !! t = Some (OTask tk) -> elsewhere h0 w ->
  getattr_output t w = (Ok (output tk), w).
Proof.
  intros Htf Ht Hw. unfold getattr_output, bind, deref.
  rewrite (Hw t Htf), Ht. reflexivity.
Qed.

Lemma touches_only_write_output_or
    (h0 : list obj) (t : ref) (tk : Task) (fallback : string) :
  t <> f -> h0 !! t = Some (OTask tk) ->
  touches_only h0 (write_output_or env f t fallback).
Proof.
  intros Htf Ht w s Hw Hf Hs. unfold write_output_or, bind at 1.
  rewrite (getattr_output_elsewhere h0 t tk w Htf Ht Hw).
  destruct (output tk) as [v|]; [destruct (truthy v)|];
    exact (touches_only_report_write h0 _ w s Hw Hf Hs).
Qed.

Lemma appends_write_output_or
    (h0 : list obj) (t : ref) (tk : Task) (fallback : string) :
  t <> f -> h0 !! t = Some (OTask tk) ->
  appends h0 [captured_or (output tk) fallback] (write_output_or env f t fallback).
Proof.
  intros Htf Ht Hnone w s Hw Hf Hs. unfold write_output_or, bind at 1.
  rewrite (getattr_output_elsewhere h0 t tk w Htf Ht Hw).
  unfold captured_or.
  destruct (output tk) as [v|]; [destruct (truthy v)|];
    exact (appends_report_write h0 _ Hnone w s Hw Hf Hs).
Qed.

(** The tasks whose output the report reads exist and are not the file. *)
Record readable (h0 : list obj) (L : locals) (tk1 tk2 tk3 tk4 tk5 tk6 : Task) : Prop := {
  readable1 : h0 !! market_research L = Some (OTask tk1) /\ market_research L <> f;
  readable2 : h0 !! user_research L = Some (OTask tk2) /\ user_research L <> f;
  readable3 : h0 !! technical_requirements L = Some (OTask tk3)
              /\ technical_requirements L <> f;
  readable4 : h0 !! compliance_review L = Some (OTask tk4) /\ compliance_review L <> f;
  readable5 : h0 !! feature_prioritization L = Some (OTask tk5)
              /\ feature_prioritization L <> f;
  readable6 : h0 !! ui_design L = Some (OTask tk6) /\ ui_design L <> f
}.

Lemma write_report_touches_only
    (h0 : list obj) (L : locals) (tk1 tk2 tk3 tk4 tk5 tk6 : Task) (result : value) :
  readable h0 L tk1 tk2 tk3 tk4 tk5 tk6 ->
  touches_only h0 (write_report env L result f).
Proof.
  intros [[H1 N1] [H2 N2] [H3 N3] [H4 N4] [H5 N5] [H6 N6]].
  unfold write_report.
  repeat (apply touches_only_seq;
          [ first [ apply touches_only_report_write
                  | eapply touches_only_write_output_or; eassumption
                  | destruct (truthy result); apply touches_only_report_write ]
          | ]).
  apply touches_only_report_write.
Qed.

Lemma write_report_appends
    (h0 : list obj) (L : locals) (tk1 tk2 tk3 tk4 tk5 tk6 : Task) (result : value) :
  readable h0 L tk1 tk2 tk3 tk4 tk5 tk6 ->
  exists cs : list string,
    appends h0 cs (write_report env L result f) /\
    String.concat "" cs =
      report_text (strftime_report env) (full_output_filename L)
        [ output tk1; output tk2; output tk3; output tk4; output tk5; output tk6;
          Some result ].
Proof.
  intros [[H1 N1] [H2 N2] [H3 N3] [H4 N4] [H5 N5] [H6 N6]].
  eexists. split.
  - unfold write_report.
    repeat (eapply appends_seq;
            [ first [ apply appends_report_write
                    | eapply appends_write_output_or; eassumption
                    | apply appends_if ]
            | ]).
    apply appends_report_write.
  - vm_compute. reflexivity.
Qed.

End Report.

(** ** The run of the crew *)

Section Kickoff.

(** What the framework writes during a kickoff, in order. *)
Fixpoint said (evs : list kick_event) : list string :=
  match evs with
  | [] => []
  | Say message :: rest => message :: said rest
  | SetOutput _ _ :: rest => said rest
  end.

(** The [output] attribute of the task at position [i] of the crew after
    the kickoff, when it was [o] before. *)
Fixpoint output_after (evs : list kick_event) (i : nat) (o : option value)
    : option value :=
  match evs with
  | [] => o
  | Say _ :: rest => output_after rest i o
  | SetOutput j v :: rest => output_after rest i (if Nat.eqb j i then v else o)
  end.

Definition task_after (evs : list kick_event) (i : nat) (t : Task) : Task :=
  mkTask (description t) (agent t) (expected_output t) (context t)
         (output_after evs i (output t)).

(** The object store as [main_setup] lays it out: the console, the log,
    the capture, nine objects of the registries, the seven tasks and the
    crew. *)
Local Abbreviation crew_heap
    T Lg o3 o4 o5 o6 o7 o8 o9 o10 o11 t0 t1 t2 t3 t4 t5 t6 c :=
  [ OStream T; OStream Lg; OCapture 0 1;
    o3; o4; o5; o6; o7; o8; o9; o10; o11;
    OTask t0; OTask t1; OTask t2; OTask t3; OTask t4; OTask t5; OTask t6;
    OCrew c ].

Lemma run_events_crew_heap (evs : list kick_event) :
  forall (dT pT dL pL : list string) (o3 o4 o5 o6 o7 o8 o9 o10 o11 : obj)
         (t0 t1 t2 t3 t4 t5 t6 : Task) (ca : list ref) (pr : Process) (cv fo : bool)
         (out0 : ref) (fs : list (string * ref)) (res : option value),
    run_events 19 evs
      (State (crew_heap (Stream dT pT false) (Stream dL pL false)
                o3 o4 o5 o6 o7 o8 o9 o10 o11 t0 t1 t2 t3 t4 t5 t6
                (mkCrew ca [12; 13; 14; 15; 16; 17; 18] pr cv fo))
             2 out0 fs res)
    = (Ok tt,
       State (crew_heap (Stream dT (pT ++ said evs) false)
                (Stream dL (pL ++ said evs) false)
                o3 o4 o5 o6 o7 o8 o9 o10 o11
                (task_after evs 0 t0) (task_after evs 1 t1) (task_after evs 2 t2)
                (task_after evs 3 t3) (task_after evs 4 t4) (task_after evs 5 t5)
                (task_after evs 6 t6)
                (mkCrew ca [12; 13; 14; 15; 16; 17; 18] pr cv fo))
             2 out0 fs res).
Proof.
  induction evs as [|[m|j v] evs IH]; intros.
  - destruct t0, t1, t2, t3, t4, t5, t6. cbn. now rewrite !app_nil_r.
  - cbn [run_events]. unfold bind at 1. cbn -[task_after].
    rewrite IH. unfold task_after. cbn [output_after].
    now rewrite <- !app_assoc.
  - cbn [run_events]. unfold bind at 1.
    do 7 (destruct j as [|j];
          [ cbn -[task_after]; rewrite IH; unfold task_after; cbn; reflexivity | ]).
    destruct j as [|j]; cbn -[task_after]; rewrite IH; unfold task_after; cbn;
      reflexivity.
Qed.

(** [crew.kickoff()] on that object store. *)
Lemma kickoff_crew_heap (env : environment) :
  forall (dT pT dL pL : list string) (o3 o4 o5 o6 o7 o8 o9 o10 o11 : obj)
         (t0 t1 t2 t3 t4 t5 t6 : Task) (ca : list ref) (pr : Process) (cv fo : bool)
         (out0 : ref) (fs : list (string * ref)) (res : option value),
    kickoff env 19
      (State (crew_heap (Stream dT pT false) (Stream dL pL false)
                o3 o4 o5 o6 o7 o8 o9 o10 o11 t0 t1 t2 t3 t4 t5 t6
                (mkCrew ca [12; 13; 14; 15; 16; 17; 18] pr cv fo))
             2 out0 fs res)
    = (match kick_outcome env with Ok v => Ok v | Raise e => Raise e end,
       State (crew_heap (Stream dT (pT ++ said (kick_events env)) false)
                (Stream dL (pL ++ said (kick_events env)) false)
                o3 o4 o5 o6 o7 o8 o9 o10 o11
                (task_after (kick_events env) 0 t0) (task_after (kick_events env) 1 t1)
                (task_after (kick_events env) 2 t2) (task_after (kick_events env) 3 t3)
                (task_after (kick_events env) 4 t4) (task_after (kick_events env) 5 t5)
                (task_after (kick_events env) 6 t6)
                (mkCrew ca [12; 13; 14; 15; 16; 17; 18] pr cv fo))
             2 out0 fs res).
Proof.
  intros. unfold kickoff, bind. rewrite run_events_crew_heap.
  now destruct (kick_outcome env).
Qed.

End Kickoff.

(** ** The driver while its output is captured *)

Section Capturing.

(** The state between line 35 and the [finally] block: [sys.stdout] is the
    capture object, which tees to the console [T] and to the log [Lg], both
    open. *)
Record capturing (w : state) (log_name : string) (T Lg : stream) : Prop := {
  capturing_stdout : sys_stdout w = 2;
  capturing_original : sys___stdout__ w = 0;
  capturing_capture : heap w !! 2 = Some (OCapture 0 1);
  capturing_terminal : heap w !! 0 = Some (OStream T);
  capturing_log : heap w !! 1 = Some (OStream Lg);
  capturing_terminal_open : closed T = false;
  capturing_log_open : closed Lg = false;
  capturing_file : file_ref w log_name = Some 1
}.

(** The state with the console and the log replaced. *)
Definition tee_put (T Lg : stream) (w : state) : state :=
  with_heap (<[1 := OStream Lg]> (<[0 := OStream T]> (heap w))) w.

(** A stream after [print(s)] or, in general, after the chunks [cs]. *)
Definition fed (s : stream) (cs : list string) : stream :=
  Stream (delivered s) (pending s ++ cs) false.

(** A stream after [close()]. *)
Definition shut (s : stream) : stream :=
  Stream (delivered s ++ pending s) [] true.

Lemma received_fed (s : stream) (cs : list string) :
  received (fed s cs) = received s ++ cs.
Proof. unfold received, fed. cbn. now rewrite app_assoc. Qed.

Lemma received_shut (s : stream) : received (shut s) = received s.
Proof. unfold received, shut. cbn. now rewrite app_nil_r. Qed.

Lemma fed_fed (s : stream) (cs1 cs2 : list string) :
  fed (fed s cs1) cs2 = fed s (cs1 ++ cs2).
Proof. unfold fed. cbn. now rewrite app_assoc. Qed.

Lemma tee_put_tee_put (T1 Lg1 T2 Lg2 : stream) (w : state) :
  tee_put T2 Lg2 (tee_put T1 Lg1 w) = tee_put T2 Lg2 w.
Proof.
  destruct w as [h out out0 fs res]. unfold tee_put. cbn. f_equal.
  rewrite (list_insert_insert_ne _ 0 1) by lia.
  now rewrite !list_insert_insert_eq.
Qed.

Lemma capturing_tee_put (w : state) (n : string) (T Lg T' Lg' : stream) :
  capturing w n T Lg -> closed T' = false -> closed Lg' = false ->
  capturing (tee_put T' Lg' w) n T' Lg'.
Proof.
  intros [Hout Hout0 Hcap Ht Hl _ _ Hfile] HT' HL'.
  destruct w as [h out out0 fs res]. cbn in *.
  pose proof (lookup_lt_Some _ _ _ Ht). pose proof (lookup_lt_Some _ _ _ Hl).
  split; cbn; try assumption.
  - now rewrite !list_lookup_insert_ne by lia.
  - rewrite list_lookup_insert_ne by lia. now apply list_lookup_insert_eq.
  - apply list_lookup_insert_eq. now rewrite length_insert.
Qed.

Lemma call_write_capturing
    (w : state) (n : string) (T Lg : stream) (message : string) :
  capturing w n T Lg ->
  call_write 2 message w = (Ok tt, tee_put (fed T [message]) (fed Lg [message]) w).
Proof.
  intros [Hout Hout0 Hcap Ht Hl HT HL Hfile].
  destruct w as [h out out0 fs res]. cbn [heap sys_stdout sys___stdout__] in *.
  unfold call_write, bind at 1, deref. cbn [heap]. rewrite Hcap.
  unfold OutputCapture_write, bind at 1, deref. cbn [heap]. rewrite Hcap.
  unfold bind.
  rewrite (file_write_open (State h out out0 fs res) 0 T message Ht HT).
  erewrite file_write_open; [reflexivity| |exact HL].
  cbn. now rewrite list_lookup_insert_ne by lia.
Qed.

Lemma print_capturing (w : state) (n : string) (T Lg : stream) (s : string) :
  capturing w n T Lg ->
  print s w = (Ok tt, tee_put (fed T [s; nl]) (fed Lg [s; nl]) w).
Proof.
  intros Hw. unfold print, bind at 1, get.
  rewrite (capturing_stdout _ _ _ _ Hw).
  unfold bind. rewrite (call_write_capturing w n T Lg s Hw).
  erewrite call_write_capturing;
    [|apply (capturing_tee_put w n T Lg); [exact Hw|reflexivity|reflexivity]].
  now rewrite tee_put_tee_put, !fed_fed.
Qed.

Lemma main_except_capturing (w : state) (n : string) (T Lg : stream) (e : exn) :
  capturing w n T Lg ->
  main_except e w
    = (Ok tt, tee_put (fed T (error_lines e)) (fed Lg (error_lines e)) w).
Proof.
  intros Hw. unfold main_except, bind.
  rewrite (print_capturing w n T Lg _ Hw).
  erewrite print_capturing;
    [|apply (capturing_tee_put w n T Lg); [exact Hw|reflexivity|reflexivity]].
  now rewrite tee_put_tee_put, !fed_fed.
Qed.

(** The [finally] block closes the log and puts [sys.stdout] back. *)
Lemma main_finally_capturing (w : state) (n : string) (T Lg : stream) :
  capturing w n T Lg ->
  main_finally w = (Ok tt, with_sys_stdout 0 (tee_put T (shut Lg) w)).
Proof.
  intros [Hout Hout0 Hcap Ht Hl HT HL Hfile].
  destruct w as [h out out0 fs res]. cbn [heap sys_stdout sys___stdout__] in *.
  subst out out0.
  unfold main_finally, bind, get, call_close, bind, deref. cbn [heap sys_stdout].
  rewrite Hcap. unfold OutputCapture_close, bind, deref. cbn [heap].
  rewrite Hcap. unfold file_close, bind, deref. cbn [heap]. rewrite Hl, HL.
  unfold store, modify, tee_put. cbn.
  now rewrite (list_insert_id h 0) by assumption.
Qed.

(** What the state after the handler or the [finally] block keeps. *)
Lemma tee_put_frame (w : state) (n : string) (T Lg T' Lg' : stream) :
  capturing w n T Lg ->
  let w' := tee_put T' Lg' w in
  files w' = files w /\
  local_result w' = local_result w /\
  sys_stdout w' = sys_stdout w /\
  sys___stdout__ w' = sys___stdout__ w /\
  (forall r : ref, r <> 0 -> r <> 1 -> heap w' !! r = heap w !! r) /\
  heap w' !! 0 = Some (OStream T') /\
  heap w' !! 1 = Some (OStream Lg').
Proof.
  intros [Hout Hout0 Hcap Ht Hl HT HL Hfile].
  destruct w as [h out out0 fs res]. cbn in *.
  pose proof (lookup_lt_Some _ _ _ Ht). pose proof (lookup_lt_Some _ _ _ Hl).
  repeat split.
  - intros r Hr0 Hr1. now rewrite !list_lookup_insert_ne by congruence.
  - rewrite list_lookup_insert_ne by lia. now apply list_lookup_insert_eq.
  - apply list_lookup_insert_eq. now rewrite length_insert.
Qed.

End Capturing.

(** ** The driver, from the [try] on *)

(** Runs the first statement of the sequence on the right of [H], which is
    an equation [x = (m ;; k) w] for a written-out state [w]. *)
Ltac exec_in H :=
  unfold bind at 1 in H;
  match type of H with
  | _ = (let (_, _) := ?x in _) =>
      let E := fresh "E" in
      evaluate x E; rewrite E in H; clear E; cbv beta iota in H
  end.

(** Runs [f.close()] in [H]. *)
Ltac close_in H :=
  unfold put in H;
  match type of H with
  | context [file_close ?f ?w] =>
      let E := fresh "E" in
      evaluate (file_close f w) E; rewrite E in H; clear E;
      cbv beta iota delta [snd] in H
  end.

Section Driver.

(** The report and the log have different names, whatever the time stamp:
    opening the report does not replace the log. *)
Lemma names_differ (ts : string) (f l : ref) (fs : list (string * ref)) :
  List.find
    (fun e => String.eqb (fst e) ("basketball_research_FULL_" +:+ ts +:+ ".txt"))
    (("basketball_league_COMPLETE_research_" +:+ ts +:+ ".md", f)
       :: ("basketball_research_FULL_" +:+ ts +:+ ".txt", l) :: fs)
  = Some ("basketball_research_FULL_" +:+ ts +:+ ".txt", l).
Proof.
  cbn [List.find fst].
  change (String.eqb ("basketball_league_COMPLETE_research_" +:+ ts +:+ ".md")
            ("basketball_research_FULL_" +:+ ts +:+ ".txt")) with false.
  now rewrite String.eqb_refl.
Qed.

(** Ends a case of [main_try_run]: [H] gives the outcome and the state. *)
Ltac capturing_in H :=
  rewrite H; do 5 eexists; split; [reflexivity|]; split; [|split];
  [ split; try reflexivity;
    unfold file_ref; cbn [files];
    first [ rewrite names_differ; reflexivity
          | cbn [List.find fst]; rewrite String.eqb_refl; reflexivity ]
  | unfold received; cbn [delivered pending]; rewrite <- ?app_assoc; reflexivity
  | ].

(** The body of the [try], run after [main_setup] on an open console: it
    ends with the output still captured, whatever its outcome. *)
Lemma main_try_run (env : environment) (d p : list string) :
  exists (L : locals) (w1 w2 : state) (r : outcome unit) (T Lg : stream)
         (printed : list string),
    main_setup env (boot (Stream d p false)) = (Ok L, w1) /\
    main_try env L w1 = (r, w2) /\
    capturing w2 (full_output_filename L) T Lg /\
    received T = (d ++ p) ++ printed /\
    match kick_outcome env with
    | Raise e => r = Raise e /\ local_result w2 = None
    | Ok v =>
        local_result w2 = Some v /\
        (r = Ok tt \/ exists k e, report_fault env = Some (k, e) /\ r = Raise e)
    end.
Proof.
  evaluate (main_setup env (boot (Stream d p false))) E1.
  match type of E1 with _ = (Ok ?L, ?w) =>
    exists L, w; remember (main_try env L w) as X eqn:HX
  end.
  cut (exists (w2 : state) (r : outcome unit) (T Lg : stream) (printed : list string),
         X = (r, w2) /\
         capturing w2 ("basketball_research_FULL_" +:+ strftime_start env +:+ ".txt") T Lg /\
         received T = (d ++ p) ++ printed /\
         match kick_outcome env with
         | Raise e => r = Raise e /\ local_result w2 = None
         | Ok v =>
             local_result w2 = Some v /\
             (r = Ok tt \/ exists k e, report_fault env = Some (k, e) /\ r = Raise e)
         end).
  { intros (w2 & r & T & Lg & printed & H). exists w2, r, T, Lg, printed.
    split; [exact E1|exact H]. }
  clear E1. unfold main_try in HX. unfold bind at 1 in HX. cbn [crew] in HX.
  rewrite (kickoff_crew_heap env) in HX.
  destruct env as [ts gen evs [v|e] fault];
    cbn [kick_outcome kick_events strftime_start strftime_report report_fault] in *;
    cbv beta iota in HX.
  - exec_in HX.
    destruct fault as [[[|k] e]|]; exec_in HX.
    + (* [open] raises *)
      capturing_in HX. split; [reflexivity|]. right. eauto.
    + (* the report is written under a scheduled exception *)
      unfold bind at 1, with_file in HX.
      match type of HX with
      | context [write_report ?env ?L ?v ?f ?w] =>
          eassert (Hread : readable f (heap w) L _ _ _ _ _ _)
            by (split; (split; [reflexivity | discriminate]));
          destruct (write_report_touches_only env f (heap w) L _ _ _ _ _ _ v Hread
                      w (Stream [] [] false))
            as (r & [d' p' c'] & Ewr & Hs' & Hr);
          [intros ? ?; reflexivity | reflexivity | reflexivity |];
          rewrite Ewr in HX; clear Ewr Hread
      end.
      cbn in Hs'. subst c'.
      destruct Hr as [-> | (k' & e' & Hfault & ->)]; cbv beta iota in HX; close_in HX.
      * do 4 exec_in HX.
        match type of HX with _ = ?x =>
          let E := fresh "E" in evaluate x E; rewrite E in HX; clear E
        end.
        capturing_in HX. split; [reflexivity|]. now left.
      * capturing_in HX. split; [reflexivity|]. right. eauto.
    + (* the report is written *)
      unfold bind at 1, with_file in HX.
      match type of HX with
      | context [write_report ?env ?L ?v ?f ?w] =>
          eassert (Hread : readable f (heap w) L _ _ _ _ _ _)
            by (split; (split; [reflexivity | discriminate]));
          destruct (write_report_touches_only env f (heap w) L _ _ _ _ _ _ v Hread
                      w (Stream [] [] false))
            as (r & [d' p' c'] & Ewr & Hs' & Hr);
          [intros ? ?; reflexivity | reflexivity | reflexivity |];
          rewrite Ewr in HX; clear Ewr Hread
      end.
      cbn in Hs'. subst c'.
      destruct Hr as [-> | (k' & e' & Hfault & ->)]; [|discriminate Hfault].
      cbv beta iota in HX; close_in HX.
      do 4 exec_in HX.
      match type of HX with _ = ?x =>
        let E := fresh "E" in evaluate x E; rewrite E in HX; clear E
      end.
      capturing_in HX. split; [reflexivity|]. now left.
  - capturing_in HX. auto.
Qed.


Lemma output_after_app (evs1 evs2 : list kick_event) (i : nat) (o : option value) :
  output_after (evs1 ++ evs2) i o = output_after evs2 i (output_after evs1 i o).
Proof.
  revert o. induction evs1 as [|[m|j v] evs1 IH]; intros o; cbn; auto.
Qed.

(** The body of the [try] when the kickoff succeeds and nothing fails while
    the report is written: the report file holds the report, with sections
    1 to 6 filled from the output attributes the tasks have by then and
    section 7 from the value the kickoff returned. *)
Lemma main_try_success (env : environment) (d p : list string) (v : value) :
  kick_outcome env = Ok v -> report_fault env = None ->
  exists (L : locals) (w1 w2 : state) (T Lg : stream),
    main_setup env (boot (Stream d p false)) = (Ok L, w1) /\
    main_try env L w1 = (Ok tt, w2) /\
    capturing w2 (full_output_filename L) T Lg /\
    local_result w2 = Some v /\
    file_ref w2 (markdown_filename L) = Some 20 /\
    read_file w2 (markdown_filename L) =
      Some (report_text (strftime_report env) (full_output_filename L)
              [ output_of w2 (market_research L); output_of w2 (user_research L);
                output_of w2 (technical_requirements L);
                output_of w2 (compliance_review L);
                output_of w2 (feature_prioritization L); output_of w2 (ui_design L);
                Some v ]) /\
    output_of w2 <$>
      [ market_research L; user_research L; technical_requirements L;
        compliance_review L; feature_prioritization L; ui_design L;
        business_model L ] =
      (fun i => output_after (kick_events env) i None) <$> [0; 1; 2; 3; 4; 5; 6].
Proof.
  intros Hok Hnone.
  evaluate (main_setup env (boot (Stream d p false))) E1.
  match type of E1 with _ = (Ok ?L, ?w) =>
    exists L, w; remember (main_try env L w) as X eqn:HX
  end.
  cut (exists (w2 : state) (T Lg : stream),
         X = (Ok tt, w2) /\
         capturing w2 ("basketball_research_FULL_" +:+ strftime_start env +:+ ".txt") T Lg /\
         local_result w2 = Some v /\
         file_ref w2 ("basketball_league_COMPLETE_research_" +:+ strftime_start env +:+ ".md")
           = Some 20 /\
         read_file w2
           ("basketball_league_COMPLETE_research_" +:+ strftime_start env +:+ ".md") =
           Some (report_text (strftime_report env)
                   ("basketball_research_FULL_" +:+ strftime_start env +:+ ".txt")
                   [ output_of w2 12; output_of w2 13; output_of w2 14;
                     output_of w2 15; output_of w2 16; output_of w2 17; Some v ]) /\
         output_of w2 <$> [12; 13; 14; 15; 16; 17; 18] =
           (fun i => output_after (kick_events env) i None) <$> [0; 1; 2; 3; 4; 5; 6]).
  { intros (w2 & T & Lg & H). exists w2, T, Lg. split; [exact E1|exact H]. }
  clear E1. unfold main_try in HX. unfold bind at 1 in HX. cbn [crew] in HX.
  rewrite (kickoff_crew_heap env) in HX.
  destruct env as [ts gen evs oc fault];
    cbn [kick_outcome kick_events strftime_start strftime_report report_fault] in *.
  subst oc fault. cbv beta iota in HX.
  do 2 exec_in HX.
  unfold bind at 1, with_file in HX.
  match type of HX with
  | context [write_report ?env ?L ?v ?f ?w] =>
      eassert (Hread : readable f (heap w) L _ _ _ _ _ _)
        by (split; (split; [reflexivity | discriminate]));
      destruct (write_report_appends env f (heap w) L _ _ _ _ _ _ v Hread)
        as (cs & Happ & Hcs);
      rewrite (Happ eq_refl w (Stream [] [] false)) in HX;
      [| intros ? ?; reflexivity | reflexivity | reflexivity];
      clear Happ Hread
  end.
  cbn [delivered pending app] in HX. cbv beta iota in HX. close_in HX.
  do 4 exec_in HX.
  match type of HX with _ = ?x =>
    let E := fresh "E" in evaluate x E; rewrite E in HX; clear E
  end.
  rewrite HX. do 3 eexists. split; [reflexivity|].
  split.
  { split; try reflexivity.
    unfold file_ref; cbn [files]. rewrite names_differ. reflexivity. }
  split; [reflexivity|].
  split.
  { unfold file_ref. cbn [files List.find fst]. now rewrite String.eqb_refl. }
  split; [|reflexivity].
  unfold read_file, file_stream, file_ref. cbn [files List.find fst].
  rewrite String.eqb_refl. cbn [heap lookup list_lookup].
  unfold received. cbn [delivered pending].
  rewrite app_nil_r. f_equal. exact Hcs.
Qed.

(** The state the [finally] block leaves: the log closed, [sys.stdout]
    the console again. *)
Definition restored (T Lg : stream) (w : state) : state :=
  with_sys_stdout 0 (tee_put T (shut Lg) w).

(** The [try] statement of [main] around a body that ends with the output
    still captured. *)
Lemma try_statement_capturing
    (body : M unit) (w1 w2 : state) (r : outcome unit) (n : string) (T Lg : stream) :
  body w1 = (r, w2) -> capturing w2 n T Lg ->
  try_except_Exception_finally body main_except main_finally w1 =
    match r with
    | Ok _ => (Ok tt, restored T Lg w2)
    | Raise e =>
        if isinstance_Exception e
        then (Ok tt, restored (fed T (error_lines e)) (fed Lg (error_lines e)) w2)
        else (Raise e, restored T Lg w2)
    end.
Proof.
  intros Hbody Hw. unfold try_except_Exception_finally. rewrite Hbody.
  destruct r as [[]|e].
  - now rewrite (main_finally_capturing w2 n T Lg Hw).
  - destruct (isinstance_Exception e).
    + rewrite (main_except_capturing w2 n T Lg e Hw).
      rewrite (main_finally_capturing _ n (fed T (error_lines e)) (fed Lg (error_lines e)));
        [|apply (capturing_tee_put w2 n T Lg); [exact Hw|reflexivity|reflexivity]].
      unfold restored. now rewrite tee_put_tee_put.
    + now rewrite (main_finally_capturing w2 n T Lg Hw).
Qed.

Lemma restored_frame (w : state) (n : string) (T Lg T' Lg' : stream) :
  capturing w n T Lg ->
  let w' := restored T' Lg' w in
  sys_stdout w' = 0 /\
  sys___stdout__ w' = 0 /\
  local_result w' = local_result w /\
  heap w' !! 0 = Some (OStream T') /\
  file_stream w' n = Some (shut Lg') /\
  (forall r : ref, output_of w' r = output_of w r) /\
  (forall (name : string) (f : ref),
     file_ref w name = Some f -> f <> 0 -> f <> 1 ->
     read_file w' name = read_file w name).
Proof.
  intros Hw.
  destruct (tee_put_frame w n T Lg T' (shut Lg') Hw)
    as (Hfiles & Hres & Hout & Hout0 & Helse & H0 & H1).
  destruct Hw as [Hstdout Horig Hcap Ht Hl HT HL Hfile].
  unfold restored. cbn zeta.
  destruct (tee_put T' (shut Lg') w) as [h' out' out0' fs' res'] eqn:Ew'.
  cbn [with_sys_stdout sys_stdout sys___stdout__ local_result heap files] in *.
  subst fs' res' out0'.
  split; [reflexivity|]. split; [assumption|]. split; [reflexivity|].
  split; [assumption|].
  split.
  { revert Hfile. unfold file_stream, file_ref. cbn [files heap].
    destruct (List.find _ (files w)) as [[n' f]|]; [|discriminate].
    intros [= ->]. now rewrite H1. }
  split.
  - intros r. unfold output_of, task_at. cbn [heap].
    destruct (Nat.eq_dec r 0) as [->|N0]; [now rewrite H0, Ht|].
    destruct (Nat.eq_dec r 1) as [->|N1]; [now rewrite H1, Hl|].
    now rewrite Helse.
  - intros name f Hname N0 N1.
    revert Hname. unfold read_file, file_stream, file_ref. cbn [files heap].
    destruct (List.find _ (files w)) as [[n' f']|]; [|discriminate].
    intros [= ->]. now rewrite Helse.
Qed.

Lemma main_after_try
    (env : environment) (w0 w1 w2 : state) (L : locals) (r : outcome unit)
    (n : string) (T Lg : stream) :
  main_setup env w0 = (Ok L, w1) -> main_try env L w1 = (r, w2) ->
  capturing w2 n T Lg ->
  main env w0 =
    match r with
    | Ok _ => return_result (restored T Lg w2)
    | Raise e =>
        if isinstance_Exception e
        then return_result
               (restored (fed T (error_lines e)) (fed Lg (error_lines e)) w2)
        else (Raise e, restored T Lg w2)
    end.
Proof.
  intros Hsetup Hbody Hw. unfold main, bind at 1. rewrite Hsetup.
  unfold bind. rewrite (try_statement_capturing _ w1 w2 r n T Lg Hbody Hw).
  destruct r as [[]|e]; [reflexivity|].
  now destruct (isinstance_Exception e).
Qed.

Lemma return_result_run (w : state) :
  return_result w =
    match local_result w with
    | Some v => (Ok v, w)
    | None =>
        (Raise (UnboundLocalError
                  "cannot access local variable 'result' where it is not associated with a value"),
         w)
    end.
Proof. unfold return_result, bind, get. now destruct (local_result w). Qed.

End Driver.

(** ** The driver as a whole *)

(** C5 (as the code has it).  The [try] statement of [main] catches, in its
    single [except Exception] clause, every exception of the body (the
    kickoff or the writing of the report) that is an instance of
    [Exception], and then prints the error message to the console and to
    the log; an exception that is not an instance of [Exception] is not
    caught and no message is printed.  On every path, normal or not, the
    [finally] block closes the log file and sets [sys.stdout] to the
    original standard output. *)
Theorem except_Exception_and_finally (env : environment) (console : stream) :
  closed console = false ->
  exists (L : locals) (w1 w2 w' : state) (r r' : outcome unit)
         (T Lg T' Lg' : stream),
    main_setup env (boot console) = (Ok L, w1) /\
    main_try env L w1 = (r, w2) /\
    match kick_outcome env with Raise e => r = Raise e | Ok _ => True end /\
    heap w2 !! 0 = Some (OStream T) /\
    file_stream w2 (full_output_filename L) = Some Lg /\
    try_except_Exception_finally (main_try env L) main_except main_finally w1
      = (r', w') /\
    sys_stdout w' = sys___stdout__ w' /\
    sys_stdout w' = sys_stdout (boot console) /\
    heap w' !! sys_stdout w' = Some (OStream T') /\
    closed T' = false /\
    file_stream w' (full_output_filename L) = Some Lg' /\
    closed Lg' = true /\
    pending Lg' = [] /\
    match r with
    | Ok _ => r' = Ok tt /\ received T' = received T /\ received Lg' = received Lg
    | Raise e =>
        if isinstance_Exception e
        then r' = Ok tt /\
             received T' = received T ++ error_lines e /\
             received Lg' = received Lg ++ error_lines e
        else r' = Raise e /\ received T' = received T /\ received Lg' = received Lg
    end.
Proof.
  intros Hopen. destruct console as [d p c]. cbn in Hopen. subst c.
  destruct (main_try_run env d p)
    as (L & w1 & w2 & r & T & Lg & printed & Hsetup & Hbody & Hw & _ & Hr).
  pose proof (try_statement_capturing _ w1 w2 r _ T Lg Hbody Hw) as Htry.
  assert (Hlog : file_stream w2 (full_output_filename L) = Some Lg).
  { unfold file_stream.
    now rewrite (capturing_file _ _ _ _ Hw), (capturing_log _ _ _ _ Hw). }
  assert (Hkick : match kick_outcome env with Raise e => r = Raise e | Ok _ => True end).
  { destruct (kick_outcome env); [exact I|apply Hr]. }
  pose proof (capturing_terminal _ _ _ _ Hw) as Hterm.
  pose proof (capturing_terminal_open _ _ _ _ Hw) as HT.
  exists L, w1, w2.
  destruct r as [[]|e]; [|destruct (isinstance_Exception e) eqn:He].
  - destruct (restored_frame w2 _ T Lg T Lg Hw) as (H1 & H2 & _ & H4 & H5 & _).
    exists (restored T Lg w2), (Ok tt), (Ok tt), T, Lg, T, (shut Lg).
    rewrite H1, H2. cbn [boot sys_stdout].
    repeat (split; [first [assumption | reflexivity]|]).
    repeat split. apply received_shut.
  - destruct (restored_frame w2 _ T Lg (fed T (error_lines e)) (fed Lg (error_lines e)) Hw)
      as (H1 & H2 & _ & H4 & H5 & _).
    exists (restored (fed T (error_lines e)) (fed Lg (error_lines e)) w2),
      (Raise e), (Ok tt), T, Lg, (fed T (error_lines e)), (shut (fed Lg (error_lines e))).
    rewrite H1, H2, He. cbn [boot sys_stdout].
    repeat (split; [first [assumption | reflexivity]|]).
    split; [apply received_fed|].
    now rewrite received_shut, received_fed.
  - destruct (restored_frame w2 _ T Lg T Lg Hw) as (H1 & H2 & _ & H4 & H5 & _).
    exists (restored T Lg w2), (Raise e), (Raise e), T, Lg, T, (shut Lg).
    rewrite H1, H2, He. cbn [boot sys_stdout].
    repeat (split; [first [assumption | reflexivity]|]).
    repeat split. apply received_shut.
Qed.

(** C5 as stated fails: a [KeyboardInterrupt] raised by the kickoff is not
    caught by the [except] clause, and no error message is printed. *)
Lemma KeyboardInterrupt_is_not_caught :
  exists (L : locals) (w1 w' : state),
    main_setup interrupted_env (boot demo_console) = (Ok L, w1) /\
    kick_outcome interrupted_env = Raise (Exn KeyboardInterrupt "") /\
    try_except_Exception_finally
      (main_try interrupted_env L) main_except main_finally w1
      = (Raise (Exn KeyboardInterrupt ""), w') /\
    exists T : stream,
      heap w' !! 0 = Some (OStream T) /\
      ~ In "Partial results may have been saved." (received T).
Proof.
  do 3 eexists. split; [vm_compute; reflexivity|].
  split; [reflexivity|].
  split; [vm_compute; reflexivity|].
  eexists. split; [vm_compute; reflexivity|].
  vm_compute. intros H.
  repeat (destruct H as [H|H]; [discriminate H|]). exact H.
Qed.

(** A failure while the report is written is caught like a failure of the
    kickoff: here the third write on the report file raises [OSError].  The
    handler prints its message, the file keeps the two chunks written before
    and is closed by the [with] statement, and [main] returns the result of
    the kickoff, which was bound before. *)
Example a_failing_write_is_caught :
  let e := Exn (ExceptionClass "OSError") "No space left on device" in
  let env := Environment "20250101_120000" "2025-01-01 12:30:00" []
               (Ok (VStr "final")) (Some (3, e)) in
  let (r, w') := main env (boot demo_console) in
  r = Ok (VStr "final") /\
  (exists T : stream,
     heap w' !! 0 = Some (OStream T) /\
     exists before, received T = before ++ error_lines e) /\
  (exists F : stream,
     file_stream w' "basketball_league_COMPLETE_research_20250101_120000.md" = Some F /\
     closed F = true /\ length (received F) = 2).
Proof.
  vm_compute. split; [reflexivity|]. split.
  - eexists. split; [reflexivity|].
    match goal with
    | |- exists before, ?l = _ =>
        exists (firstn (length l - 4) l); vm_compute; reflexivity
    end.
  - eexists. repeat split; reflexivity.
Qed.

(** C9 (as the code has it).  When the kickoff raises an exception, [main]
    does not return normally.  If the exception is an instance of
    [Exception], the handler and the [finally] block run and the final
    [return result] raises [UnboundLocalError], the local variable [result]
    never having been bound; otherwise the exception itself leaves [main]
    after the [finally] block.  So [main] returns a value only when the
    kickoff succeeded. *)
Theorem main_does_not_return_when_kickoff_raises
    (env : environment) (console : stream) (e : exn) :
  closed console = false ->
  kick_outcome env = Raise e ->
  (if isinstance_Exception e
   then exists (w' : state) (m : string),
          main env (boot console) = (Raise (UnboundLocalError m), w') /\
          local_result w' = None
   else exists w' : state, main env (boot console) = (Raise e, w')) /\
  (forall (v : value) (w' : state), main env (boot console) <> (Ok v, w')).
Proof.
  intros Hopen Hkick. destruct console as [d p c]. cbn in Hopen. subst c.
  destruct (main_try_run env d p)
    as (L & w1 & w2 & r & T & Lg & printed & Hsetup & Hbody & Hw & _ & Hr).
  rewrite Hkick in Hr. destruct Hr as [-> Hres].
  rewrite (main_after_try env _ w1 w2 L _ _ T Lg Hsetup Hbody Hw).
  destruct (isinstance_Exception e).
  - destruct (restored_frame w2 _ T Lg (fed T (error_lines e)) (fed Lg (error_lines e)) Hw)
      as (_ & _ & H3 & _).
    rewrite return_result_run, H3, Hres.
    split; [|discriminate]. do 2 eexists. split; [reflexivity|]. now rewrite H3.
  - split; [|discriminate]. eexists. reflexivity.
Qed.

(** C9 as stated fails: when the kickoff is interrupted from the keyboard,
    what leaves [main] is the [KeyboardInterrupt], not an
    [UnboundLocalError]. *)
Lemma KeyboardInterrupt_leaves_main :
  kick_outcome interrupted_env = Raise (Exn KeyboardInterrupt "") /\
  fst (main interrupted_env (boot demo_console)) = Raise (Exn KeyboardInterrupt "") /\
  ~ (exists (w' : state) (m : string),
       main interrupted_env (boot demo_console) = (Raise (UnboundLocalError m), w')).
Proof.
  split; [reflexivity|]. split; [vm_compute; reflexivity|].
  intros (w' & m & H). apply (f_equal fst) in H. vm_compute in H. discriminate H.
Qed.

(** [main] returns a value only when the kickoff succeeded, and then it
    returns what the kickoff returned. *)
Lemma main_returns_the_kickoff_result
    (env : environment) (console : stream) (v : value) (w' : state) :
  closed console = false ->
  main env (boot console) = (Ok v, w') -> kick_outcome env = Ok v.
Proof.
  intros Hopen Hmain. destruct console as [d p c]. cbn in Hopen. subst c.
  destruct (main_try_run env d p)
    as (L & w1 & w2 & r & T & Lg & printed & Hsetup & Hbody & Hw & _ & Hr).
  rewrite (main_after_try env _ w1 w2 L _ _ T Lg Hsetup Hbody Hw) in Hmain.
  destruct (kick_outcome env) as [v0|e0].
  - destruct Hr as [Hres Hr].
    destruct r as [[]|e].
    + destruct (restored_frame w2 _ T Lg T Lg Hw) as (_ & _ & H3 & _).
      rewrite return_result_run, H3, Hres in Hmain. congruence.
    + destruct (isinstance_Exception e); [|discriminate Hmain].
      destruct (restored_frame w2 _ T Lg (fed T (error_lines e))
                  (fed Lg (error_lines e)) Hw) as (_ & _ & H3 & _).
      rewrite return_result_run, H3, Hres in Hmain. congruence.
  - destruct Hr as [-> Hres].
    destruct (isinstance_Exception e0); [|discriminate Hmain].
    destruct (restored_frame w2 _ T Lg (fed T (error_lines e0))
                (fed Lg (error_lines e0)) Hw) as (_ & _ & H3 & _).
    rewrite return_result_run, H3, Hres in Hmain. discriminate Hmain.
Qed.

(** C4 (as the code has it).  After a successful crew execution, and when
    nothing fails while the report is written, the driver has written a
    Markdown report that consists of a title, the time of generation and a
    rule, then the fixed table of contents of seven entries, then seven
    numbered sections in the order of the table of contents, then a closing
    note.  Each of the sections 1 to 6 holds the captured output of its task
    when the task has a truthy [output] attribute and the fixed fallback
    note of the section otherwise; section 7 holds, in the same way, the
    value returned by the kickoff. *)
Theorem report_after_successful_kickoff
    (env : environment) (console : stream) (result : value) :
  closed console = false ->
  kick_outcome env = Ok result ->
  report_fault env = None ->
  exists (L : locals) (w1 w' : state),
    main_setup env (boot console) = (Ok L, w1) /\
    main env (boot console) = (Ok result, w') /\
    read_file w' (markdown_filename L) =
      Some (report_text (strftime_report env) (full_output_filename L)
              [ output_of w' (market_research L);
                output_of w' (user_research L);
                output_of w' (technical_requirements L);
                output_of w' (compliance_review L);
                output_of w' (feature_prioritization L);
                output_of w' (ui_design L);
                Some result ]).
Proof.
  intros Hopen Hok Hnone. destruct console as [d p c]. cbn in Hopen. subst c.
  destruct (main_try_success env d p result Hok Hnone)
    as (L & w1 & w2 & T & Lg & Hsetup & Hbody & Hw & Hres & Hmd & Hreport & _).
  destruct (restored_frame w2 _ T Lg T Lg Hw) as (_ & _ & H3 & _ & _ & Hout & Hfile).
  exists L, w1, (restored T Lg w2).
  split; [exact Hsetup|]. split.
  - rewrite (main_after_try env _ w1 w2 L _ _ T Lg Hsetup Hbody Hw).
    now rewrite return_result_run, H3, Hres.
  - rewrite (Hfile _ 20 Hmd) by discriminate. now rewrite !Hout.
Qed.

(** C4 as stated fails: in the demo run the business-model task has the
    truthy output "business plan", and section 7 of the report does not hold
    it. *)
Lemma section_7_does_not_hold_the_task_output :
  exists (L : locals) (w1 w' : state),
    main_setup demo_env (boot demo_console) = (Ok L, w1) /\
    main demo_env (boot demo_console) = (Ok (VObj true "crew output"), w') /\
    output_of w' (business_model L) = Some (VStr "business plan") /\
    read_file w' (markdown_filename L) <>
      Some (report_text (strftime_report demo_env) (full_output_filename L)
              [ output_of w' (market_research L);
                output_of w' (user_research L);
                output_of w' (technical_requirements L);
                output_of w' (compliance_review L);
                output_of w' (feature_prioritization L);
                output_of w' (ui_design L);
                output_of w' (business_model L) ]).
Proof.
  do 3 eexists. split; [vm_compute; reflexivity|].
  split; [vm_compute; reflexivity|].
  split; [vm_compute; reflexivity|].
  intros H. vm_compute in H. discriminate H.
Qed.

(** C8.  In the report of a successful run, section 7 (Business Model &
    Monetization) is filled from the value returned by [crew.kickoff()],
    and the sections 1 to 6 from the [output] attributes of their tasks.
    The [output] attribute of the business-model task plays no part: let
    the framework set it, last of all, to any value [v7] (or remove it),
    and the report is the same. *)
Theorem section_7_is_filled_from_the_kickoff_result
    (env : environment) (console : stream) (result : value) (v7 : option value) :
  closed console = false ->
  kick_outcome env = Ok result ->
  report_fault env = None ->
  let env' :=
    Environment (strftime_start env) (strftime_report env)
                (kick_events env ++ [SetOutput 6 v7])
                (kick_outcome env) (report_fault env) in
  exists (L : locals) (w1 w' w'' : state) (c : Crew),
    main_setup env (boot console) = (Ok L, w1) /\
    heap w1 !! crew L = Some (OCrew c) /\
    crew_tasks c !! 6 = Some (business_model L) /\
    main env (boot console) = (Ok result, w') /\
    main env' (boot console) = (Ok result, w'') /\
    output_of w'' (business_model L) = v7 /\
    read_file w'' (markdown_filename L) = read_file w' (markdown_filename L) /\
    read_file w' (markdown_filename L) =
      Some (report_text (strftime_report env) (full_output_filename L)
              [ output_of w' (market_research L);
                output_of w' (user_research L);
                output_of w' (technical_requirements L);
                output_of w' (compliance_review L);
                output_of w' (feature_prioritization L);
                output_of w' (ui_design L);
                Some result ]).
Proof.
  intros Hopen Hok Hnone env'. destruct console as [d p c]. cbn in Hopen. subst c.
  destruct (main_try_success env d p result Hok Hnone)
    as (L & w1 & w2 & T & Lg & Hsetup & Hbody & Hw & Hres & Hmd & Hreport & Houts).
  destruct (main_try_success env' d p result Hok Hnone)
    as (L' & w1' & w2' & T' & Lg' & Hsetup' & Hbody' & Hw' & Hres' & Hmd' & Hreport'
        & Houts').
  change (main_setup env') with (main_setup env) in Hsetup'.
  rewrite Hsetup in Hsetup'. injection Hsetup' as <- <-.
  destruct (restored_frame w2 _ T Lg T Lg Hw) as (_ & _ & H3 & _ & _ & Hout & Hfile).
  destruct (restored_frame w2' _ T' Lg' T' Lg' Hw')
    as (_ & _ & H3' & _ & _ & Hout' & Hfile').
  assert (Hcrew : exists c : Crew,
             heap w1 !! crew L = Some (OCrew c) /\
             crew_tasks c !! 6 = Some (business_model L)).
  { evaluate (main_setup env (boot (Stream d p false))) E.
    rewrite E in Hsetup. injection Hsetup as <- <-. clear E.
    eexists. split; reflexivity. }
  destruct Hcrew as (c & Hc & Hc6).
  cbn [fmap list_fmap] in Houts, Houts'.
  cbn [kick_events env'] in Houts'.
  rewrite !output_after_app in Houts'. cbn [output_after Nat.eqb] in Houts'.
  injection Houts as O1 O2 O3 O4 O5 O6 O7.
  injection Houts' as O1' O2' O3' O4' O5' O6' O7'.
  exists L, w1, (restored T Lg w2), (restored T' Lg' w2'), c.
  split; [exact Hsetup|]. split; [exact Hc|]. split; [exact Hc6|].
  split.
  { rewrite (main_after_try env _ w1 w2 L _ _ T Lg Hsetup Hbody Hw).
    now rewrite return_result_run, H3, Hres. }
  split.
  { rewrite (main_after_try env' _ w1 w2' L _ _ T' Lg' Hsetup Hbody' Hw').
    now rewrite return_result_run, H3', Hres'. }
  split; [now rewrite Hout'|].
  rewrite (Hfile _ 20 Hmd) by discriminate.
  rewrite (Hfile' _ 20 Hmd') by discriminate.
  rewrite !Hout. split; [|exact Hreport].
  rewrite Hreport, Hreport'. cbn [strftime_report env'].
  now rewrite O1, O2, O3, O4, O5, O6, O1', O2', O3', O4', O5', O6'.
Qed.

(** ** Concrete runs *)

(** C1 at work: the demo run, where the hypotheses hold. *)
Lemma three_of_seven_tasks_declare_context_witness :
  closed demo_console = false /\
  (length tasks.methods = 7 /\
  (forall m : tasks.method, m ∈ tasks.methods) /\
  (forall (m : tasks.method) (self agent : ref) (ctx : list ref) (w : state),
     exists t : Task,
       tasks.call m self agent (if takes_context m then Some ctx else None) w
         = allocates (OTask t) w) /\
  List.filter takes_context tasks.methods =
    [ tasks.Feature_prioritization_task; tasks.Business_model_task;
      tasks.Ui_design_task ] /\
  exists (L : locals) (w : state) (c : Crew),
    main_setup demo_env (boot demo_console) = (Ok L, w) /\
    heap w !! crew L = Some (OCrew c) /\
    length (crew_tasks c) = 7 /\
    List.filter (declares_context w) (crew_tasks c) =
      [ feature_prioritization L; ui_design L; business_model L ] /\
    length (List.filter (declares_context w) (crew_tasks c)) = 3).
Proof.
  split; [reflexivity|].
  exact (three_of_seven_tasks_declare_context demo_env demo_console eq_refl).
Defined.

(** C3 at work: a capture over the demo console, after a write and a flush,
    where the hypotheses hold. *)
Lemma OutputCapture_duplicates_writes_witness :
  heap (boot demo_console) !! sys_stdout (boot demo_console) = Some (OStream demo_console) /\
  closed demo_console = false /\
  (exists (self : ref) (w1 w2 : state) (T' Lg' : stream),
    OutputCapture "capture.log" (boot demo_console) = (Ok self, w1) /\
    perform_all self [Write "tip-off"; Flush] w1 = (Ok tt, w2) /\
    heap w2 !! sys_stdout (boot demo_console) = Some (OStream T') /\
    file_stream w2 "capture.log" = Some Lg' /\
    received T' = received demo_console ++ written [Write "tip-off"; Flush] /\
    received Lg' = written [Write "tip-off"; Flush] /\
    closed T' = false /\ closed Lg' = false /\
    (forall before : list capture_call,
       [Write "tip-off"; Flush] = before ++ [Flush] -> pending T' = [] /\ pending Lg' = [])).
Proof.
  split; [reflexivity|]. split; [reflexivity|].
  exact (OutputCapture_duplicates_writes
           "capture.log" (boot demo_console) demo_console [Write "tip-off"; Flush]
           eq_refl eq_refl).
Defined.

(** C6 at work: the demo run, where the hypotheses hold. *)
Lemma crew_is_sequential_with_seven_tasks_in_order_witness :
  closed demo_console = false /\
  (exists (L : locals) (w : state) (c : Crew),
    main_setup demo_env (boot demo_console) = (Ok L, w) /\
    heap w !! crew L = Some (OCrew c) /\
    process c = sequential /\
    length (crew_tasks c) = 7 /\
    crew_tasks c = all_tasks L /\
    crew_tasks c =
      [ market_research L; user_research L; technical_requirements L;
        compliance_review L; feature_prioritization L; ui_design L;
        business_model L ] /\
    NoDup (crew_tasks c) /\
    task_at w <$> crew_tasks c =
      [ task_descriptor tasks.Market_research_task (market_researcher L) None;
        task_descriptor tasks.User_research_task (ux_researcher L) None;
        task_descriptor tasks.Technical_requirements_task (technical_architect L) None;
        task_descriptor tasks.Compliance_review_task (compliance_expert L) None;
        task_descriptor tasks.Feature_prioritization_task (feature_analyst L)
          (Some [market_research L; user_research L; technical_requirements L]);
        task_descriptor tasks.Ui_design_task (ui_designer L)
          (Some [user_research L; feature_prioritization L]);
        task_descriptor tasks.Business_model_task (business_strategist L)
          (Some [market_research L; user_research L; feature_prioritization L]) ] /\
    Forall (fun t => is_Some t) (task_at w <$> crew_tasks c)).
Proof.
  split; [reflexivity|].
  exact (crew_is_sequential_with_seven_tasks_in_order demo_env demo_console eq_refl).
Defined.

(** C7 at work: the demo run, where the hypotheses hold. *)
Lemma context_points_backwards_witness :
  closed demo_console = false /\
  (exists (L : locals) (w : state) (c : Crew),
    main_setup demo_env (boot demo_console) = (Ok L, w) /\
    heap w !! crew L = Some (OCrew c) /\
    (forall (i : nat) (r x : ref),
       crew_tasks c !! i = Some r -> depends_on w r x ->
       exists j : nat, j < i /\ crew_tasks c !! j = Some x) /\
    (forall r : ref, ~ tc (depends_on w) r r)).
Proof.
  split; [reflexivity|].
  exact (context_points_backwards demo_env demo_console eq_refl).
Defined.

(** C5 at work: a run in which the framework fails, where the hypotheses hold. *)
Lemma except_Exception_and_finally_witness :
  closed demo_console = false /\
  (exists (L : locals) (w1 w2 w' : state) (r r' : outcome unit)
         (T Lg T' Lg' : stream),
    main_setup failing_env (boot demo_console) = (Ok L, w1) /\
    main_try failing_env L w1 = (r, w2) /\
    match kick_outcome failing_env with Raise e => r = Raise e | Ok _ => True end /\
    heap w2 !! 0 = Some (OStream T) /\
    file_stream w2 (full_output_filename L) = Some Lg /\
    try_except_Exception_finally (main_try failing_env L) main_except main_finally w1
      = (r', w') /\
    sys_stdout w' = sys___stdout__ w' /\
    sys_stdout w' = sys_stdout (boot demo_console) /\
    heap w' !! sys_stdout w' = Some (OStream T') /\
    closed T' = false /\
    file_stream w' (full_output_filename L) = Some Lg' /\
    closed Lg' = true /\
    pending Lg' = [] /\
    match r with
    | Ok _ => r' = Ok tt /\ received T' = received T /\ received Lg' = received Lg
    | Raise e =>
        if isinstance_Exception e
        then r' = Ok tt /\
             received T' = received T ++ error_lines e /\
             received Lg' = received Lg ++ error_lines e
        else r' = Raise e /\ received T' = received T /\ received Lg' = received Lg
    end).
Proof.
  split; [reflexivity|].
  exact (except_Exception_and_finally failing_env demo_console eq_refl).
Defined.

(** C9 at work: a run in which the framework fails, where the hypotheses hold. *)
Lemma main_does_not_return_when_kickoff_raises_witness :
  closed demo_console = false /\
  kick_outcome failing_env = Raise (ValueError "no API key") /\
  ((if isinstance_Exception (ValueError "no API key")
   then exists (w' : state) (m : string),
          main failing_env (boot demo_console) = (Raise (UnboundLocalError m), w') /\
          local_result w' = None
   else exists w' : state,
          main failing_env (boot demo_console) = (Raise (ValueError "no API key"), w')) /\
  (forall (v : value) (w' : state), main failing_env (boot demo_console) <> (Ok v, w'))).
Proof.
  split; [reflexivity|]. split; [reflexivity|].
  exact (main_does_not_return_when_kickoff_raises
           failing_env demo_console (ValueError "no API key") eq_refl eq_refl).
Defined.

(** C4 at work: the demo run, where the hypotheses hold. *)
Lemma report_after_successful_kickoff_witness :
  closed demo_console = false /\
  kick_outcome demo_env = Ok (VObj true "crew output") /\
  report_fault demo_env = None /\
  (exists (L : locals) (w1 w' : state),
    main_setup demo_env (boot demo_console) = (Ok L, w1) /\
    main demo_env (boot demo_console) = (Ok (VObj true "crew output"), w') /\
    read_file w' (markdown_filename L) =
      Some (report_text (strftime_report demo_env) (full_output_filename L)
              [ output_of w' (market_research L);
                output_of w' (user_research L);
                output_of w' (technical_requirements L);
                output_of w' (compliance_review L);
                output_of w' (feature_prioritization L);
                output_of w' (ui_design L);
                Some (VObj true "crew output") ])).
Proof.
  split; [reflexivity|]. split; [reflexivity|]. split; [reflexivity|].
  exact (report_after_successful_kickoff
           demo_env demo_console (VObj true "crew output") eq_refl eq_refl eq_refl).
Defined.

(** C8 at work: the demo run, where the hypotheses hold. *)
Lemma section_7_is_filled_from_the_kickoff_result_witness :
  closed demo_console = false /\
  kick_outcome demo_env = Ok (VObj true "crew output") /\
  report_fault demo_env = None /\
  (let env' :=
    Environment (strftime_start demo_env) (strftime_report demo_env)
                (kick_events demo_env ++ [SetOutput 6 (Some (VStr "another plan"))])
                (kick_outcome demo_env) (report_fault demo_env) in
  exists (L : locals) (w1 w' w'' : state) (c : Crew),
    main_setup demo_env (boot demo_console) = (Ok L, w1) /\
    heap w1 !! crew L = Some (OCrew c) /\
    crew_tasks c !! 6 = Some (business_model L) /\
    main demo_env (boot demo_console) = (Ok (VObj true "crew output"), w') /\
    main env' (boot demo_console) = (Ok (VObj true "crew output"), w'') /\
    output_of w'' (business_model L) = (Some (VStr "another plan")) /\
    read_file w'' (markdown_filename L) = read_file w' (markdown_filename L) /\
    read_file w' (markdown_filename L) =
      Some (report_text (strftime_report demo_env) (full_output_filename L)
              [ output_of w' (market_research L);
                output_of w' (user_research L);
                output_of w' (technical_requirements L);
                output_of w' (compliance_review L);
                output_of w' (feature_prioritization L);
                output_of w' (ui_design L);
                Some (VObj true "crew output") ])).
Proof.
  split; [reflexivity|]. split; [reflexivity|]. split; [reflexivity|].
  exact (section_7_is_filled_from_the_kickoff_result
           demo_env demo_console (VObj true "crew output") (Some (VStr "another plan"))
           eq_refl eq_refl eq_refl).
Defined.

(** * Further properties *)

(** ** OutputCapture after [close()] *)

(** Once an [OutputCapture] is closed, the log is closed and flushed and
    the terminal is as it was.  Closing again changes nothing.  A later
    [write(message)] still sends the message to the terminal and only then
    raises [ValueError], the log being closed; a later [flush()] likewise
    flushes the terminal and then raises.  The log keeps what it held when
    it was closed. *)
Theorem OutputCapture_after_close
    (filename : string) (w : state) (T : stream) (calls : list capture_call)
    (message : string) :
  heap w !! sys_stdout w = Some (OStream T) ->
  closed T = false ->
  exists (self : ref) (w1 w2 w3 w4 w5 : state) (T2 Lg2 : stream),
    OutputCapture filename w = (Ok self, w1) /\
    perform_all self calls w1 = (Ok tt, w2) /\
    heap w2 !! sys_stdout w = Some (OStream T2) /\
    file_stream w2 filename = Some Lg2 /\
    OutputCapture_close self w2 = (Ok tt, w3) /\
    heap w3 !! sys_stdout w = Some (OStream T2) /\
    file_stream w3 filename = Some (shut Lg2) /\
    OutputCapture_close self w3 = (Ok tt, w3) /\
    OutputCapture_write self message w3 = (Raise closed_file, w4) /\
    heap w4 !! sys_stdout w = Some (OStream (fed T2 [message])) /\
    file_stream w4 filename = Some (shut Lg2) /\
    OutputCapture_flush self w3 = (Raise closed_file, w5) /\
    heap w5 !! sys_stdout w
      = Some (OStream (Stream (delivered T2 ++ pending T2) [] false)) /\
    file_stream w5 filename = Some (shut Lg2).
Proof.
  intros Ht HT.
  destruct (OutputCapture_teeing filename w T Ht HT)
    as (self & log & w1 & Hinit & Hfiles1 & Htee1).
  destruct (perform_all_teeing calls w1 self _ log _ _ Htee1)
    as (w2 & Hrun & Hfiles2 & Htee2).
  set (t := sys_stdout w) in *.
  set (T2 := fold_left stream_after calls T) in *.
  set (Lg2 := fold_left stream_after calls (Stream [] [] false)) in *.
  destruct Htee2 as [Hself Ht2 Hl2 HT2 HL2 (Htl & Hts & Hls)].
  destruct w2 as [h out out0 fs res]. cbn [heap files] in *.
  pose proof (lookup_lt_Some _ _ _ Ht2) as Ht_lt.
  pose proof (lookup_lt_Some _ _ _ Hl2) as Hl_lt.
  assert (Hfile : forall h' : list obj,
             h' !! log = Some (OStream (shut Lg2)) ->
             file_stream (State h' out out0 fs res) filename = Some (shut Lg2)).
  { intros h' Hh'. unfold file_stream, file_ref. cbn [files heap].
    rewrite Hfiles2, Hfiles1. cbn [List.find fst].
    now rewrite String.eqb_refl, Hh'. }
  assert (Hlog3 : <[log := OStream (shut Lg2)]> h !! log = Some (OStream (shut Lg2)))
    by now apply list_lookup_insert_eq.
  exists self, w1, (State h out out0 fs res),
    (State (<[log := OStream (shut Lg2)]> h) out out0 fs res),
    (State (<[t := OStream (fed T2 [message])]> (<[log := OStream (shut Lg2)]> h))
           out out0 fs res),
    (State (<[t := OStream (Stream (delivered T2 ++ pending T2) [] false)]>
              (<[log := OStream (shut Lg2)]> h)) out out0 fs res),
    T2, Lg2.
  split; [exact Hinit|]. split; [exact Hrun|]. split; [exact Ht2|].
  split.
  { unfold file_stream, file_ref. cbn [files heap].
    rewrite Hfiles2, Hfiles1. cbn [List.find fst].
    now rewrite String.eqb_refl, Hl2. }
  split.
  { unfold OutputCapture_close, bind, deref. cbn [heap]. rewrite Hself.
    unfold file_close, bind, deref. cbn [heap]. now rewrite Hl2, HL2. }
  split; [cbn [heap]; now rewrite list_lookup_insert_ne by congruence|].
  split; [now apply Hfile|].
  split.
  { unfold OutputCapture_close, bind, deref. cbn [heap].
    rewrite list_lookup_insert_ne by assumption. rewrite Hself.
    unfold file_close, bind, deref. cbn [heap]. now rewrite Hlog3. }
  split.
  { unfold OutputCapture_write, bind at 1, deref. cbn [heap].
    rewrite list_lookup_insert_ne by assumption. rewrite Hself.
    unfold bind.
    erewrite file_write_open;
      [| cbn [heap]; rewrite list_lookup_insert_ne by congruence; exact Ht2
       | exact HT2 ].
    unfold file_write, bind, deref. cbn [heap with_heap].
    rewrite list_lookup_insert_ne by congruence. now rewrite Hlog3. }
  split.
  { cbn [heap]. apply list_lookup_insert_eq. now rewrite length_insert. }
  split.
  { apply Hfile. now rewrite list_lookup_insert_ne by congruence. }
  split.
  { unfold OutputCapture_flush, bind at 1, deref. cbn [heap].
    rewrite list_lookup_insert_ne by assumption. rewrite Hself.
    unfold bind.
    erewrite file_flush_open;
      [| cbn [heap]; rewrite list_lookup_insert_ne by congruence; exact Ht2
       | exact HT2 ].
    unfold file_flush, bind, deref. cbn [heap with_heap].
    rewrite list_lookup_insert_ne by congruence. now rewrite Hlog3. }
  split.
  { cbn [heap]. apply list_lookup_insert_eq. now rewrite length_insert. }
  apply Hfile. now rewrite list_lookup_insert_ne by congruence.
Qed.

(** ** What exactly reaches the report file *)

Section Chunks.






Lemma write_all_open (fault : option (nat * exn)) (cs : list string) (s : stream) :
  closed s = false -> closed (snd (write_all fault s cs)) = false.
Proof.
  revert s. induction cs as [|c cs IH]; intros s Hs; [exact Hs|].
  cbn [write_all]. destruct fault as [[k e]|].
  - destruct (Nat.eqb k (S (length (received s)))); [exact Hs|now apply IH].
  - now apply IH.
Qed.

Lemma write_all_app (fault : option (nat * exn)) (cs1 cs2 : list string) (s : stream) :
  write_all fault s (cs1 ++ cs2) =
    match write_all fault s cs1 with
    | (Ok _, s1) => write_all fault s1 cs2
    | (Raise e, s1) => (Raise e, s1)
    end.
Proof.
  revert s. induction cs1 as [|c cs1 IH]; intros s; [reflexivity|].
  cbn [app write_all]. destruct fault as [[k e]|].
  - destruct (Nat.eqb k (S (length (received s)))); [reflexivity|apply IH].
  - apply IH.
Qed.

(** On a file that holds the chunks [pre], all still buffered: the write
    that fails, if any, is the one the environment names, and the file
    then holds the chunks written before it. *)
Lemma write_all_buffered (fault : option (nat * exn)) (cs pre : list string) :
  write_all fault (Stream [] pre false) cs =
    match fault with
    | Some (k, e) =>
        if (Nat.ltb (length pre) k && Nat.leb k (length pre + length cs))%bool
        then (Raise e, Stream [] (pre ++ firstn (k - S (length pre)) cs) false)
        else (Ok tt, Stream [] (pre ++ cs) false)
    | None => (Ok tt, Stream [] (pre ++ cs) false)
    end.
Proof.
  revert pre. induction cs as [|c cs IH]; intros pre.
  - cbn [write_all length]. rewrite app_nil_r. destruct fault as [[k e]|]; [|reflexivity].
    destruct (Nat.ltb_spec (length pre) k), (Nat.leb_spec k (length pre + 0));
      cbn [andb]; try reflexivity; lia.
  - cbn [write_all delivered pending]. unfold received. cbn [delivered pending app].
    rewrite IH. rewrite length_app. cbn [length].
    destruct fault as [[k e]|].
    + destruct (Nat.eqb_spec k (S (length pre))) as [->|Hne].
      * rewrite Nat.sub_diag. cbn [firstn]. rewrite app_nil_r.
        destruct (Nat.ltb_spec (length pre) (S (length pre))),
                 (Nat.leb_spec (S (length pre)) (length pre + S (length cs)));
          cbn [andb]; try reflexivity; lia.
      * destruct (Nat.ltb_spec (length pre + 1) k),
                 (Nat.leb_spec k (length pre + 1 + length cs)),
                 (Nat.ltb_spec (length pre) k),
                 (Nat.leb_spec k (length pre + S (length cs)));
          cbn [andb]; try lia; rewrite <- ?app_assoc; cbn [app]; try reflexivity.
        replace (k - S (length pre)) with (S (k - S (length pre + 1))) by lia.
        reflexivity.
    + now rewrite <- app_assoc.
Qed.

Variable env : environment.
Variable f : ref.

(** [m] writes the chunks [cs] to the open file [f], up to the write that
    fails, and changes nothing else. *)
Definition writes (h0 : list obj) (cs : list string) (m : M unit) : Prop :=
  forall (w : state) (s : stream),
    elsewhere f h0 w -> heap w !! f = Some (OStream s) -> closed s = false ->
    m w = (fst (write_all (report_fault env) s cs),
           put f (snd (write_all (report_fault env) s cs)) w).

Lemma writes_seq (h0 : list obj) (cs1 cs2 : list string) (m k : M unit) :
  writes h0 cs1 m -> writes h0 cs2 k -> writes h0 (cs1 ++ cs2) (m ;; k).
Proof.
  intros Hm Hk w s Hw Hf Hs. unfold bind. rewrite (Hm w s Hw Hf Hs).
  rewrite write_all_app.
  pose proof (write_all_open (report_fault env) cs1 s Hs) as Hopen.
  destruct (write_all (report_fault env) s cs1) as [[[]|e] s1]; cbn [fst snd] in *.
  - rewrite (Hk (put f s1 w) s1);
      [| now apply elsewhere_put | now apply (lookup_put f w s) | assumption].
    now rewrite put_put.
  - reflexivity.
Qed.

Lemma writes_report_write (h0 : list obj) (chunk : string) :
  writes h0 [chunk] (report_write env f chunk).
Proof.
  intros w s _ Hf Hs. rewrite (report_write_run env f chunk w s Hf Hs).
  cbn [write_all]. destruct (report_fault env) as [[k e]|].
  - destruct (Nat.eqb k (S (length (received s)))); cbn [fst snd]; [|reflexivity].
    now rewrite (put_same f w s Hf).
  - reflexivity.
Qed.

Lemma writes_if (h0 : list obj) (b : bool) (chunk1 chunk2 : string) :
  writes h0 [if b then chunk1 else chunk2]
    (if b then report_write env f chunk1 else report_write env f chunk2).
Proof. destruct b; apply writes_report_write. Qed.

Lemma writes_write_output_or
    (h0 : list obj) (t : ref) (tk : Task) (fallback : string) :
  t <> f -> h0 !! t = Some (OTask tk) ->
  writes h0 [captured_or (output tk) fallback] (write_output_or env f t fallback).
Proof.
  intros Htf Ht w s Hw Hf Hs. unfold write_output_or, bind at 1.
  rewrite (getattr_output_elsewhere f h0 t tk w Htf Ht Hw).
  unfold captured_or.
  destruct (output tk) as [v|]; [destruct (truthy v)|];
    exact (writes_report_write h0 _ w s Hw Hf Hs).
Qed.

Lemma report_writes_length
    (generated log_name : string) (o1 o2 o3 o4 o5 o6 o7 : option value) :
  length (report_writes generated log_name [o1; o2; o3; o4; o5; o6; o7]) = 35.
Proof. reflexivity. Qed.


(** The body of the [with] statement writes the 35 chunks of the report,
    in order, up to the write that fails. *)
Lemma write_report_writes
    (h0 : list obj) (L : locals) (tk1 tk2 tk3 tk4 tk5 tk6 : Task) (result : value) :
  readable f h0 L tk1 tk2 tk3 tk4 tk5 tk6 ->
  writes h0
    (report_writes (strftime_report env) (full_output_filename L)
       [ output tk1; output tk2; output tk3; output tk4; output tk5; output tk6;
         Some result ])
    (write_report env L result f).
Proof.
  intros [[H1 N1] [H2 N2] [H3 N3] [H4 N4] [H5 N5] [H6 N6]].
  assert (H : exists cs : list string,
             writes h0 cs (write_report env L result f) /\
             cs = report_writes (strftime_report env) (full_output_filename L)
                    [ output tk1; output tk2; output tk3; output tk4; output tk5;
                      output tk6; Some result ]).
  { eexists. split.
    - unfold write_report.
      repeat (eapply writes_seq;
              [ first [ apply writes_report_write
                      | eapply writes_write_output_or; eassumption
                      | apply writes_if ]
              | ]).
      apply writes_report_write.
    - vm_compute. reflexivity. }
  destruct H as (cs & Hcs & ->). exact Hcs.
Qed.

End Chunks.

(** ** The whole run, step by step *)

Section Trace.

(** The report is not yet there when only the log has been opened. *)
Lemma report_not_found (ts : string) (l : ref) :
  List.find
    (fun e => String.eqb (fst e) ("basketball_league_COMPLETE_research_" +:+ ts +:+ ".md"))
    [("basketball_research_FULL_" +:+ ts +:+ ".txt", l)]
  = None.
Proof. reflexivity. Qed.

(** Ends a case of [main_try_trace] in which there is no report file. *)
Ltac trace_without_report H :=
  rewrite H; do 4 eexists; split; [reflexivity|]; split; [|split; [|split; [|split]]];
  [ split; try reflexivity;
    unfold file_ref; cbn [files List.find fst]; rewrite String.eqb_refl; reflexivity
  | unfold received, banner; cbn [delivered pending app];
    rewrite <- ?app_assoc; reflexivity
  | unfold received, launch_lines, closing_lines; cbn [delivered pending app];
    rewrite <- ?app_assoc, ?app_nil_r; reflexivity
  | reflexivity
  | split; [reflexivity|]; split; [|reflexivity];
    unfold file_ref; cbn [files]; rewrite report_not_found; reflexivity ].

(** Ends a case of [main_try_trace] in which the report file was opened. *)
Ltac trace_with_report H HWA :=
  rewrite H; do 4 eexists; split; [reflexivity|]; split; [|split; [|split; [|split]]];
  [ split; try reflexivity;
    unfold file_ref; cbn [files]; rewrite names_differ; reflexivity
  | unfold received, banner; cbn [delivered pending app];
    rewrite <- ?app_assoc; reflexivity
  | unfold received, launch_lines, closing_lines; cbn [delivered pending app];
    rewrite <- ?app_assoc, ?app_nil_r; reflexivity
  | reflexivity
  | split;
    [ unfold file_ref; cbn [files List.find fst]; rewrite String.eqb_refl; reflexivity
    | split; [reflexivity|]; cbv zeta;
      match type of HWA with
      | ?val = _ =>
          match goal with
          | |- context [write_all ?a ?b ?c] =>
              replace (write_all a b c) with val by exact HWA
          end
      end;
      split; reflexivity ] ].

(** The body of the [try] on an open console, in full: what the console
    and the log hold, whether a report file exists and what it holds. *)
Lemma main_try_trace (env : environment) (d p : list string) :
  exists (L : locals) (w1 w2 : state) (r : outcome unit) (T Lg : stream),
    main_setup env (boot (Stream d p false)) = (Ok L, w1) /\
    timestamp L = strftime_start env /\
    full_output_filename L
      = "basketball_research_FULL_" +:+ strftime_start env +:+ ".txt" /\
    main_try env L w1 = (r, w2) /\
    capturing w2 (full_output_filename L) T Lg /\
    received T = (d ++ p) ++ banner ++ received Lg /\
    received Lg =
      launch_lines (full_output_filename L) ++ said (kick_events env) ++
      match r with
      | Ok _ => closing_lines (markdown_filename L) (full_output_filename L)
      | Raise _ => []
      end /\
    local_result w2 =
      match kick_outcome env with Ok v => Some v | Raise _ => None end /\
    match kick_outcome env with
    | Raise e =>
        r = Raise e /\ file_ref w2 (markdown_filename L) = None /\
        files w2 = [(full_output_filename L, 1)]
    | Ok v =>
        match report_fault env with
        | Some (O, e) =>
            r = Raise e /\ file_ref w2 (markdown_filename L) = None /\
            files w2 = [(full_output_filename L, 1)]
        | _ =>
            file_ref w2 (markdown_filename L) = Some 20 /\
            files w2 = [(markdown_filename L, 20); (full_output_filename L, 1)] /\
            let WA :=
              write_all (report_fault env) (Stream [] [] false)
                (report_writes (strftime_report env) (full_output_filename L)
                   [ output_of w2 (market_research L);
                     output_of w2 (user_research L);
                     output_of w2 (technical_requirements L);
                     output_of w2 (compliance_review L);
                     output_of w2 (feature_prioritization L);
                     output_of w2 (ui_design L);
                     Some v ]) in
            heap w2 !! 20 = Some (OStream (shut (snd WA))) /\ r = fst WA
        end
    end.
Proof.
  evaluate (main_setup env (boot (Stream d p false))) E1.
  match type of E1 with _ = (Ok ?L, ?w) =>
    exists L, w; remember (main_try env L w) as X eqn:HX
  end.
  cut (exists (w2 : state) (r : outcome unit) (T Lg : stream),
         X = (r, w2) /\
         capturing w2 ("basketball_research_FULL_" +:+ strftime_start env +:+ ".txt") T Lg /\
         received T = (d ++ p) ++ banner ++ received Lg /\
         received Lg =
           launch_lines ("basketball_research_FULL_" +:+ strftime_start env +:+ ".txt")
             ++ said (kick_events env) ++
           match r with
           | Ok _ =>
               closing_lines
                 ("basketball_league_COMPLETE_research_" +:+ strftime_start env +:+ ".md")
                 ("basketball_research_FULL_" +:+ strftime_start env +:+ ".txt")
           | Raise _ => []
           end /\
         local_result w2 =
           match kick_outcome env with Ok v => Some v | Raise _ => None end /\
         match kick_outcome env with
         | Raise e =>
             r = Raise e /\
             file_ref w2
               ("basketball_league_COMPLETE_research_" +:+ strftime_start env +:+ ".md")
               = None /\
             files w2 =
               [("basketball_research_FULL_" +:+ strftime_start env +:+ ".txt", 1)]
         | Ok v =>
             match report_fault env with
             | Some (O, e) =>
                 r = Raise e /\
                 file_ref w2
                   ("basketball_league_COMPLETE_research_" +:+ strftime_start env +:+ ".md")
                   = None /\
                 files w2 =
                   [("basketball_research_FULL_" +:+ strftime_start env +:+ ".txt", 1)]
             | _ =>
                 file_ref w2
                   ("basketball_league_COMPLETE_research_" +:+ strftime_start env +:+ ".md")
                   = Some 20 /\
                 files w2 =
                   [ ("basketball_league_COMPLETE_research_" +:+ strftime_start env +:+ ".md",
                      20);
                     ("basketball_research_FULL_" +:+ strftime_start env +:+ ".txt", 1) ] /\
                 let WA :=
                   write_all (report_fault env) (Stream [] [] false)
                     (report_writes (strftime_report env)
                        ("basketball_research_FULL_" +:+ strftime_start env +:+ ".txt")
                        [ output_of w2 12; output_of w2 13; output_of w2 14;
                          output_of w2 15; output_of w2 16; output_of w2 17;
                          Some v ]) in
                 heap w2 !! 20 = Some (OStream (shut (snd WA))) /\ r = fst WA
             end
         end).
  { intros (w2 & r & T & Lg & H). exists w2, r, T, Lg.
    split; [exact E1|]. split; [reflexivity|]. split; [reflexivity|exact H]. }
  clear E1. unfold main_try in HX. unfold bind at 1 in HX. cbn [crew] in HX.
  rewrite (kickoff_crew_heap env) in HX.
  destruct env as [ts gen evs [v|e] fault];
    cbn [kick_outcome kick_events strftime_start strftime_report report_fault] in *;
    cbv beta iota in HX.
  - exec_in HX.
    destruct fault as [[[|k] e]|]; exec_in HX.
    + trace_without_report HX.
    + unfold bind at 1, with_file in HX.
      match type of HX with
      | context [write_report ?env ?L ?v ?f ?w] =>
          eassert (Hread : readable f (heap w) L _ _ _ _ _ _)
            by (split; (split; [reflexivity | discriminate]));
          pose proof (write_report_writes env f (heap w) L _ _ _ _ _ _ v Hread
                        w (Stream [] [] false)
                        (fun _ _ => eq_refl) eq_refl eq_refl) as Ewr;
          clear Hread
      end.
      cbn [report_fault strftime_report full_output_filename] in Ewr.
      match type of Ewr with
      | context [write_all ?fl ?s ?cs] =>
          pose proof (write_all_open fl cs s eq_refl) as Hopen;
          remember (write_all fl s cs) as WA eqn:HWA
      end.
      rewrite Ewr in HX. clear Ewr.
      destruct WA as [[[]|e'] [d' p' c']]; cbn [fst snd closed] in *; subst c';
        cbv beta iota in HX; close_in HX.
      * do 4 exec_in HX.
        match type of HX with _ = ?x =>
          let E := fresh "E" in evaluate x E; rewrite E in HX; clear E
        end.
        trace_with_report HX HWA.
      * trace_with_report HX HWA.
    + unfold bind at 1, with_file in HX.
      match type of HX with
      | context [write_report ?env ?L ?v ?f ?w] =>
          eassert (Hread : readable f (heap w) L _ _ _ _ _ _)
            by (split; (split; [reflexivity | discriminate]));
          pose proof (write_report_writes env f (heap w) L _ _ _ _ _ _ v Hread
                        w (Stream [] [] false)
                        (fun _ _ => eq_refl) eq_refl eq_refl) as Ewr;
          clear Hread
      end.
      cbn [report_fault strftime_report full_output_filename] in Ewr.
      match type of Ewr with
      | context [write_all ?fl ?s ?cs] =>
          pose proof (write_all_open fl cs s eq_refl) as Hopen;
          remember (write_all fl s cs) as WA eqn:HWA
      end.
      rewrite Ewr in HX. clear Ewr.
      destruct WA as [[[]|e'] [d' p' c']]; cbn [fst snd closed] in *; subst c';
        cbv beta iota in HX; close_in HX.
      * do 4 exec_in HX.
        match type of HX with _ = ?x =>
          let E := fresh "E" in evaluate x E; rewrite E in HX; clear E
        end.
        trace_with_report HX HWA.
      * trace_with_report HX HWA.
  - trace_without_report HX.
Qed.


Lemma fed_nothing (s : stream) : closed s = false -> fed s [] = s.
Proof. destruct s as [d p c]. cbn. intros ->. unfold fed. cbn. now rewrite app_nil_r. Qed.

(** However the body of the [try] ends, [main] ends in the state the
    [finally] block leaves, after the error message if there was one. *)
Lemma main_ends_restored
    (env : environment) (w0 w1 w2 : state) (L : locals) (r : outcome unit)
    (n : string) (T Lg : stream) :
  main_setup env w0 = (Ok L, w1) -> main_try env L w1 = (r, w2) ->
  capturing w2 n T Lg ->
  exists (rm : outcome value) (extra : list string),
    main env w0 = (rm, restored (fed T extra) (fed Lg extra) w2) /\
    match r with
    | Ok _ =>
        extra = [] /\
        rm = match local_result w2 with
             | Some v => Ok v
             | None => Raise (UnboundLocalError
                 "cannot access local variable 'result' where it is not associated with a value")
             end
    | Raise e =>
        if isinstance_Exception e
        then extra = error_lines e /\
             rm = match local_result w2 with
                  | Some v => Ok v
                  | None => Raise (UnboundLocalError
                      "cannot access local variable 'result' where it is not associated with a value")
                  end
        else extra = [] /\ rm = Raise e
    end.
Proof.
  intros Hsetup Hbody Hw.
  pose proof (capturing_terminal_open _ _ _ _ Hw) as HT.
  pose proof (capturing_log_open _ _ _ _ Hw) as HL.
  rewrite (main_after_try env w0 w1 w2 L r n T Lg Hsetup Hbody Hw).
  destruct r as [[]|e]; [|destruct (isinstance_Exception e)].
  - destruct (restored_frame w2 n T Lg T Lg Hw) as (_ & _ & H3 & _).
    exists (match local_result w2 with
            | Some v => Ok v
            | None => Raise (UnboundLocalError
                "cannot access local variable 'result' where it is not associated with a value")
            end), [].
    rewrite !fed_nothing by assumption. rewrite return_result_run, H3.
    split; [now destruct (local_result w2)|]. now split.
  - destruct (restored_frame w2 n T Lg (fed T (error_lines e)) (fed Lg (error_lines e)) Hw)
      as (_ & _ & H3 & _).
    exists (match local_result w2 with
            | Some v => Ok v
            | None => Raise (UnboundLocalError
                "cannot access local variable 'result' where it is not associated with a value")
            end), (error_lines e).
    rewrite return_result_run, H3.
    split; [now destruct (local_result w2)|]. now split.
  - exists (Raise e), []. rewrite !fed_nothing by assumption. now split.
Qed.

(** What the [finally] block leaves alone: the file table and every object
    but the console and the log. *)
Lemma restored_store (w : state) (n : string) (T Lg T' Lg' : stream) :
  capturing w n T Lg ->
  files (restored T' Lg' w) = files w /\
  heap (restored T' Lg' w) !! 1 = Some (OStream (shut Lg')) /\
  forall r : ref, r <> 0 -> r <> 1 -> heap (restored T' Lg' w) !! r = heap w !! r.
Proof.
  intros Hw.
  destruct (tee_put_frame w n T Lg T' (shut Lg') Hw)
    as (Hfiles & _ & _ & _ & Helse & _ & H1).
  unfold restored.
  destruct (tee_put T' (shut Lg') w) as [h' out' out0' fs' res'].
  cbn [with_sys_stdout heap files] in *. auto.
Qed.

(** A run of [main] on an open console, from the first [print] to the
    [return]: what it returns or raises, what the console and the log hold
    at the end, which files exist, and what the report file holds. *)
Lemma main_run (env : environment) (d p : list string) :
  exists (L : locals) (w1 w' : state) (rm : outcome value) (T' Lg' : stream),
    main_setup env (boot (Stream d p false)) = (Ok L, w1) /\
    timestamp L = strftime_start env /\
    full_output_filename L
      = "basketball_research_FULL_" +:+ strftime_start env +:+ ".txt" /\
    main env (boot (Stream d p false)) = (rm, w') /\
    rm =
      match try_outcome env, kick_outcome env with
      | Ok _, Ok v => Ok v
      | Raise e, Ok v => if isinstance_Exception e then Ok v else Raise e
      | Raise e, Raise _ =>
          if isinstance_Exception e
          then Raise (UnboundLocalError
                 "cannot access local variable 'result' where it is not associated with a value")
          else Raise e
      | Ok _, Raise e => Raise e
      end /\
    sys_stdout w' = 0 /\
    sys___stdout__ w' = 0 /\
    heap w' !! 0 = Some (OStream T') /\
    closed T' = false /\
    heap w' !! 1 = Some (OStream (shut Lg')) /\
    file_stream w' (full_output_filename L) = Some (shut Lg') /\
    file_ref w' (markdown_filename L) = (if report_opened env then Some 20 else None) /\
    received T' = (d ++ p) ++ banner ++ received Lg' /\
    received Lg' =
      launch_lines (full_output_filename L) ++ said (kick_events env) ++
      match try_outcome env with
      | Ok _ => closing_lines (markdown_filename L) (full_output_filename L)
      | Raise e => if isinstance_Exception e then error_lines e else []
      end /\
    files w' =
      (if report_opened env then [(markdown_filename L, 20)] else [])
        ++ [(full_output_filename L, 1)] /\
    match kick_outcome env with
    | Ok v =>
        report_opened env = true ->
        heap w' !! 20 =
          Some (OStream (shut (snd
            (write_all (report_fault env) (Stream [] [] false)
               (report_writes (strftime_report env) (full_output_filename L)
                  [ output_of w' (market_research L);
                    output_of w' (user_research L);
                    output_of w' (technical_requirements L);
                    output_of w' (compliance_review L);
                    output_of w' (feature_prioritization L);
                    output_of w' (ui_design L);
                    Some v ])))))
    | Raise _ => True
    end.
Proof.
  destruct (main_try_trace env d p)
    as (L & w1 & w2 & r & T & Lg & Hsetup & Hts & Hname & Hbody & Hw & HT & HLg & Hres
        & Hcase).
  assert (Hr : r = try_outcome env).
  { unfold try_outcome. destruct (kick_outcome env) as [v|e]; [|tauto].
    destruct (report_fault env) as [[[|k] e]|]; [tauto| |].
    - destruct Hcase as (_ & _ & _ & ->).
      rewrite (write_all_buffered _ _ []), report_writes_length.
      cbn [length Nat.add]. unfold report_length.
      change (Nat.ltb 0 (S k)) with true. cbn [andb fst].
      now destruct (Nat.leb (S k) 35).
    - destruct Hcase as (_ & _ & _ & ->).
      now rewrite (write_all_buffered _ _ []). }
  destruct (main_ends_restored env _ w1 w2 L r _ T Lg Hsetup Hbody Hw)
    as (rm & extra & Hmain & Hrm).
  destruct (restored_frame w2 _ T Lg (fed T extra) (fed Lg extra) Hw)
    as (H1 & H2 & H3 & H4 & H5 & H6 & _).
  destruct (restored_store w2 _ T Lg (fed T extra) (fed Lg extra) Hw)
    as (Hfiles & Hlog & Helse).
  cbv zeta in *.
  exists L, w1, (restored (fed T extra) (fed Lg extra) w2), rm,
         (fed T extra), (fed Lg extra).
  split; [exact Hsetup|]. split; [exact Hts|]. split; [exact Hname|].
  split; [exact Hmain|].
  split.
  { subst r. rewrite Hres in Hrm. unfold try_outcome in *.
    destruct (kick_outcome env) as [v|e].
    - destruct (report_fault env) as [[k e]|]; [destruct (Nat.leb k report_length)|];
        try tauto.
      destruct (isinstance_Exception e); tauto.
    - destruct (isinstance_Exception e); tauto. }
  split; [exact H1|]. split; [exact H2|]. split; [exact H4|].
  split; [reflexivity|]. split; [exact Hlog|]. split; [exact H5|].
  split.
  { unfold file_ref. rewrite Hfiles. fold (file_ref w2 (markdown_filename L)).
    unfold report_opened.
    destruct (kick_outcome env) as [v|e]; [|tauto].
    destruct (report_fault env) as [[[|k] e]|]; tauto. }
  split; [rewrite !received_fed, HT, <- !app_assoc; reflexivity|].
  split.
  { rewrite received_fed, HLg, <- !app_assoc. subst r.
    destruct (try_outcome env) as [[]|e]; [|destruct (isinstance_Exception e)];
      destruct Hrm as [-> _]; now rewrite ?app_nil_r. }
  split.
  { rewrite Hfiles. unfold report_opened.
    destruct (kick_outcome env) as [v|e]; [|tauto].
    destruct (report_fault env) as [[[|k] e]|]; tauto. }
  unfold report_opened.
  destruct (kick_outcome env) as [v|e]; [|exact I].
  intros Hopened. rewrite !H6, Helse by discriminate.
  destruct (report_fault env) as [[[|k] e]|]; [discriminate Hopened| |]; tauto.
Qed.

End Trace.

(** ** What a run leaves behind *)

(** On every path through [main] (success, caught failure, uncaught
    exception) the console ends up holding what it held before the call,
    then the two banner lines printed before the capture is installed, then
    exactly what the log file holds: everything printed while the capture
    is installed reaches both, and nothing else reaches either. *)
Theorem log_mirrors_console (env : environment) (console : stream) :
  closed console = false ->
  exists (L : locals) (w1 w' : state) (r : outcome value) (T' Lg' : stream),
    main_setup env (boot console) = (Ok L, w1) /\
    main env (boot console) = (r, w') /\
    heap w' !! sys___stdout__ w' = Some (OStream T') /\
    file_stream w' (full_output_filename L) = Some Lg' /\
    received T' = received console ++ banner ++ received Lg'.
Proof.
  intros Hopen. destruct console as [d p c]. cbn in Hopen. subst c.
  destruct (main_run env d p)
    as (L & w1 & w' & rm & T' & Lg' & Hsetup & _ & _ & Hmain & _ & _ & Horig & HT'
        & _ & _ & Hlog & _ & Hmirror & _).
  exists L, w1, w', rm, T', (shut Lg').
  rewrite Horig, received_shut. auto.
Qed.

(** The log of a run holds, in this order: the two launch lines, what the
    framework wrote to [sys.stdout] during the kickoff, and then the five
    closing lines when the body of the [try] came to its end, the two lines
    of the error message when it raised an [Exception], and nothing more
    when it raised something else.  Nothing of the report goes to the
    log. *)
Theorem log_holds_the_run (env : environment) (console : stream) :
  closed console = false ->
  exists (L : locals) (w1 w' : state) (r : outcome value) (Lg' : stream),
    main_setup env (boot console) = (Ok L, w1) /\
    main env (boot console) = (r, w') /\
    file_stream w' (full_output_filename L) = Some Lg' /\
    received Lg' =
      launch_lines (full_output_filename L) ++ said (kick_events env) ++
      match try_outcome env with
      | Ok _ => closing_lines (markdown_filename L) (full_output_filename L)
      | Raise e => if isinstance_Exception e then error_lines e else []
      end.
Proof.
  intros Hopen. destruct console as [d p c]. cbn in Hopen. subst c.
  destruct (main_run env d p)
    as (L & w1 & w' & rm & T' & Lg' & Hsetup & _ & _ & Hmain & _ & _ & _ & _
        & _ & _ & Hlog & _ & _ & Hheld & _).
  exists L, w1, w', rm, (shut Lg').
  rewrite received_shut. auto.
Qed.

(** [main] returns a value exactly when the kickoff returned one and the
    exception met while the report was opened or written, if any, is an
    [Exception]; the value is the kickoff's.  So a report that could not be
    written does not show in what [main] returns. *)
Theorem main_returns_iff (env : environment) (console : stream) (v : value) :
  closed console = false ->
  (exists w' : state, main env (boot console) = (Ok v, w')) <->
  kick_outcome env = Ok v /\
  match report_fault env with
  | Some (k, e) => k <= report_length -> isinstance_Exception e = true
  | None => True
  end.
Proof.
  intros Hopen. destruct console as [d p c]. cbn in Hopen. subst c.
  destruct (main_run env d p)
    as (L & w1 & w' & rm & T' & Lg' & _ & _ & _ & Hmain & Hrm & _).
  rewrite Hmain. unfold try_outcome in Hrm.
  destruct (kick_outcome env) as [v0|e0].
  - destruct (report_fault env) as [[k e]|].
    + destruct (Nat.leb_spec k report_length) as [Hk|Hk].
      * destruct (isinstance_Exception e); subst rm; split.
        -- intros (w'' & [= -> _]). auto.
        -- intros ([= ->] & _). now exists w'.
        -- intros (w'' & [=]).
        -- intros (_ & H). specialize (H Hk). discriminate H.
      * subst rm; split.
        -- intros (w'' & [= -> _]). split; [reflexivity|]. lia.
        -- intros ([= ->] & _). now exists w'.
    + subst rm; split.
      * intros (w'' & [= -> _]). auto.
      * intros ([= ->] & _). now exists w'.
  - split.
    + intros (w'' & [= H _]). subst rm.
      destruct (isinstance_Exception e0); discriminate H.
    + intros ([=] & _).
Qed.



(** A console that is already closed: the first [print] raises
    [ValueError], and [main] ends there, before the capture is installed
    and before any file or object is created. *)
Theorem main_on_a_closed_console (env : environment) (console : stream) :
  closed console = true ->
  main env (boot console) = (Raise closed_file, boot console).
Proof.
  intros Hclosed. destruct console as [d p c]. cbn in Hclosed. subst c.
  reflexivity.
Qed.

(** ** The crew and the task registry *)

(** The crew [main] builds has seven different agents, each the Agent the
    registry method of its name creates, listed in the order of the tasks:
    the task at each position is assigned to the agent at that position, so
    every task is carried by a member of the crew and every member carries
    one task.  The crew is created with [verbose=True] and
    [full_output=True]. *)
Theorem every_task_is_carried_by_the_agent_at_its_position
    (env : environment) (console : stream) :
  closed console = false ->
  exists (L : locals) (w : state) (c : Crew),
    main_setup env (boot console) = (Ok L, w) /\
    crew_at w (crew L) = Some c /\
    crew_agents c =
      [ market_researcher L; ux_researcher L; technical_architect L;
        compliance_expert L; feature_analyst L; ui_designer L;
        business_strategist L ] /\
    NoDup (crew_agents c) /\
    agent_at w <$> crew_agents c =
      agent_descriptor <$>
        [ agents.Market_researcher; agents.Ux_researcher; agents.Technical_architect;
          agents.Compliance_expert; agents.Feature_analyst; agents.Ui_designer;
          agents.Business_strategist ] /\
    (fun t : ref => Py.agent <$> task_at w t) <$> crew_tasks c
      = Some <$> crew_agents c /\
    crew_verbose c = true /\
    full_output c = true.
Proof.
  intros Hopen. destruct console as [d p c]. cbn in Hopen. subst c.
  evaluate (main_setup env (boot (Stream d p false))) E.
  do 3 eexists. split; [exact E|]. clear E.
  split; [reflexivity|]. split; [reflexivity|].
  split.
  { cbn [crew_agents].
    repeat (apply NoDup_cons; split;
            [ rewrite ?not_elem_of_cons; repeat split;
              solve [discriminate | apply not_elem_of_nil]
            | ]).
    apply NoDup_nil. exact I. }
  split; [vm_compute; reflexivity|].
  split; [reflexivity|]. split; reflexivity.
Qed.

(** A method of [BasketballLeagueTasks] accepts exactly the arguments of
    its signature: the three methods with a [context] parameter need it, the
    other four reject it, and a rejected call raises [TypeError] and creates
    nothing.  An accepted call creates a Task with a non-empty description
    and expected output, the agent and the context list it was given (an
    empty list stays an empty list) and no output yet.  The seven
    descriptions are pairwise different, and so are the seven expected
    outputs. *)
Theorem task_registry_descriptors :
  (forall (m : tasks.method) (self agent : ref) (ctx : option (list ref)) (w : state),
     match takes_context m, ctx with
     | true, Some _ | false, None =>
         exists t : Task,
           task_descriptor m agent ctx = Some t /\
           tasks.call m self agent ctx w = allocates (OTask t) w /\
           description t <> "" /\
           expected_output t <> "" /\
           Py.agent t = agent /\
           context t = ctx /\
           output t = None
     | _, _ =>
         exists message : string,
           task_descriptor m agent ctx = None /\
           tasks.call m self agent ctx w = (Raise (TypeError message), w)
     end) /\
  (forall (m1 m2 : tasks.method) (a1 a2 : ref) (c1 c2 : option (list ref))
          (t1 t2 : Task),
     task_descriptor m1 a1 c1 = Some t1 ->
     task_descriptor m2 a2 c2 = Some t2 ->
     description t1 = description t2 \/ expected_output t1 = expected_output t2 ->
     m1 = m2).
Proof.
  split.
  - intros m self agent ctx w.
    destruct m, ctx as [ctx|]; cbn [takes_context];
      first [ eexists; split; [reflexivity|]; split; [reflexivity|];
              split; [intros H; vm_compute in H; discriminate H|];
              split; [intros H; vm_compute in H; discriminate H|];
              repeat split; reflexivity
            | eexists; split; reflexivity ].
  - intros m1 m2 a1 a2 c1 c2 t1 t2 H1 H2 H.
    destruct m1, c1 as [c1|]; cbn in H1; try discriminate H1;
      injection H1 as <-;
      destruct m2, c2 as [c2|]; cbn in H2; try discriminate H2;
      injection H2 as <-;
      try reflexivity;
      destruct H as [H|H]; vm_compute in H; discriminate H.
Qed.

(** ** Further concrete runs *)

(** An [OutputCapture] over the demo console that is written to, closed and
    then used again. *)
Lemma OutputCapture_after_close_witness :
  heap (boot demo_console) !! sys_stdout (boot demo_console) = Some (OStream demo_console) /\
  closed demo_console = false /\
  (exists (self : ref) (w1 w2 w3 w4 w5 : state) (T2 Lg2 : stream),
    OutputCapture "log.txt" (boot demo_console) = (Ok self, w1) /\
    perform_all self [Write "a"; Flush; Write "b"] w1 = (Ok tt, w2) /\
    heap w2 !! sys_stdout (boot demo_console) = Some (OStream T2) /\
    file_stream w2 "log.txt" = Some Lg2 /\
    OutputCapture_close self w2 = (Ok tt, w3) /\
    heap w3 !! sys_stdout (boot demo_console) = Some (OStream T2) /\
    file_stream w3 "log.txt" = Some (shut Lg2) /\
    OutputCapture_close self w3 = (Ok tt, w3) /\
    OutputCapture_write self "late" w3 = (Raise closed_file, w4) /\
    heap w4 !! sys_stdout (boot demo_console) = Some (OStream (fed T2 ["late"])) /\
    file_stream w4 "log.txt" = Some (shut Lg2) /\
    OutputCapture_flush self w3 = (Raise closed_file, w5) /\
    heap w5 !! sys_stdout (boot demo_console)
      = Some (OStream (Stream (delivered T2 ++ pending T2) [] false)) /\
    file_stream w5 "log.txt" = Some (shut Lg2)).
Proof.
  split; [reflexivity|].
  split; [reflexivity|].
  apply (OutputCapture_after_close "log.txt" (boot demo_console) demo_console
           [Write "a"; Flush; Write "b"] "late");
    [reflexivity | reflexivity].
Defined.

(** The console and the log of a run in which the framework fails. *)
Lemma log_mirrors_console_witness :
  closed demo_console = false /\
  (exists (L : locals) (w1 w' : state) (r : outcome value) (T' Lg' : stream),
    main_setup failing_env (boot demo_console) = (Ok L, w1) /\
    main failing_env (boot demo_console) = (r, w') /\
    heap w' !! sys___stdout__ w' = Some (OStream T') /\
    file_stream w' (full_output_filename L) = Some Lg' /\
    received T' = received demo_console ++ banner ++ received Lg').
Proof.
  split; [reflexivity|].
  apply (log_mirrors_console failing_env demo_console);
    reflexivity.
Defined.

(** The log of a run in which the framework fails. *)
Lemma log_holds_the_run_witness :
  closed demo_console = false /\
  (exists (L : locals) (w1 w' : state) (r : outcome value) (Lg' : stream),
    main_setup failing_env (boot demo_console) = (Ok L, w1) /\
    main failing_env (boot demo_console) = (r, w') /\
    file_stream w' (full_output_filename L) = Some Lg' /\
    received Lg' =
      launch_lines (full_output_filename L) ++ said (kick_events failing_env) ++
      match try_outcome failing_env with
      | Ok _ => closing_lines (markdown_filename L) (full_output_filename L)
      | Raise e => if isinstance_Exception e then error_lines e else []
      end).
Proof.
  split; [reflexivity|].
  apply (log_holds_the_run failing_env demo_console);
    reflexivity.
Defined.

(** What [main] returns when the disk is full. *)
Lemma main_returns_iff_witness :
  closed demo_console = false /\
  ((exists w' : state,
      main disk_full_env (boot demo_console) = (Ok (VStr "final"), w')) <->
  kick_outcome disk_full_env = Ok (VStr "final") /\
  match report_fault disk_full_env with
  | Some (k, e) => k <= report_length -> isinstance_Exception e = true
  | None => True
  end).
Proof.
  split; [reflexivity|].
  apply (main_returns_iff disk_full_env demo_console (VStr "final"));
    reflexivity.
Defined.



(** The demo run on a console that has been closed. *)
Lemma main_on_a_closed_console_witness :
  closed closed_console = true /\
  (main demo_env (boot closed_console) = (Raise closed_file, boot closed_console)).
Proof.
  split; [reflexivity|].
  apply (main_on_a_closed_console demo_env closed_console);
    reflexivity.
Defined.

(** The crew of the demo run. *)
Lemma every_task_is_carried_by_the_agent_at_its_position_witness :
  closed demo_console = false /\
  (exists (L : locals) (w : state) (c : Crew),
    main_setup demo_env (boot demo_console) = (Ok L, w) /\
    crew_at w (crew L) = Some c /\
    crew_agents c =
      [ market_researcher L; ux_researcher L; technical_architect L;
        compliance_expert L; feature_analyst L; ui_designer L;
        business_strategist L ] /\
    NoDup (crew_agents c) /\
    agent_at w <$> crew_agents c =
      agent_descriptor <$>
        [ agents.Market_researcher; agents.Ux_researcher; agents.Technical_architect;
          agents.Compliance_expert; agents.Feature_analyst; agents.Ui_designer;
          agents.Business_strategist ] /\
    (fun t : ref => Py.agent <$> task_at w t) <$> crew_tasks c
      = Some <$> crew_agents c /\
    crew_verbose c = true /\
    full_output c = true).
Proof.
  split; [reflexivity|].
  apply (every_task_is_carried_by_the_agent_at_its_position demo_env demo_console);
    reflexivity.
Defined.
